(** * maml_zoo/policies/base.py: the abstract policy interface

    A shallow embedding of the classes [Policy] and [MetaPolicy] of
    [maml_zoo/policies/base.py].  Python methods become computations in a
    state-and-exception monad over a world made of the receiver [self] and
    the TensorFlow default graph and session; a raised exception keeps the
    state reached so far, as in Python. *)

From stdpp Require Import gmap strings list fin_maps.
From Stdlib Require Import ZArith.

(** ** Python outcomes *)

Inductive exn : Type :=
| NotImplementedError
| AssertionError
| AttributeError
| ValueError
| FailedPreconditionError
| InvalidArgumentError.

Inductive result (A : Type) : Type :=
| Ret (a : A)
| Raise (e : exn).
Arguments Ret {A} a.
Arguments Raise {A} e.

(** A method call: from the state before to an outcome and the state after. *)
Definition M (S A : Type) : Type := S → result A * S.

#[global] Instance M_ret (S : Type) : MRet (M S) :=
  λ A a s, (Ret a, s).

#[global] Instance M_bind (S : Type) : MBind (M S) :=
  λ A B f m s,
    match m s with
    | (Ret a, s') => f a s'
    | (Raise e, s') => (Raise e, s')
    end.

Definition raise {S A : Type} (e : exn) : M S A := λ s, (Raise e, s).
Definition gets {S A : Type} (f : S → A) : M S A := λ s, (Ret (f s), s).
Definition modify {S : Type} (f : S → S) : M S unit := λ s, (Ret (), f s).

(** [assert b] *)
Definition py_assert {S : Type} (b : bool) : M S unit :=
  if b then mret () else raise AssertionError.

(** [range(n)] *)
Definition py_range (n : Z) : list Z := Z.of_nat <$> seq 0 (Z.to_nat n).

(** [m] raises [e] from state [s]. *)
Definition raises {S A : Type} (e : exn) (m : M S A) (s : S) : Prop :=
  (m s).1 = Raise e.

(** ** Insertion-ordered dictionaries with string keys

    [dict] and [collections.OrderedDict] keep their items in insertion
    order; assigning to a key that is present replaces the value in place. *)

Abbreviation odict V := (list (string * V)).

Fixpoint odict_setitem {V : Type} (k : string) (v : V) (d : odict V) : odict V :=
  match d with
  | [] => [(k, v)]
  | (k', v') :: d' =>
      if decide (k' = k) then (k', v) :: d' else (k', v') :: odict_setitem k v d'
  end.

(** [OrderedDict(pairs)] *)
Definition OrderedDict {V : Type} (pairs : list (string * V)) : odict V :=
  foldl (λ d kv, odict_setitem kv.1 kv.2 d) [] pairs.

Definition odict_keys {V : Type} (d : odict V) : list string := d.*1.
Definition odict_values {V : Type} (d : odict V) : list V := d.*2.
Definition odict_items {V : Type} (d : odict V) : list (string * V) := d.

Fixpoint odict_get {V : Type} (k : string) (d : odict V) : option V :=
  match d with
  | [] => None
  | (k', v) :: d' => if decide (k' = k) then Some v else odict_get k d'
  end.

(** ** Element types and shapes of arrays and tensors *)

Inductive dtype : Type := float32 | float64 | int32.

#[global] Instance dtype_eq_dec : EqDecision dtype.
Proof. solve_decision. Defined.

Abbreviation shape := (list Z).

(** ** What the module imports and does not define *)

Class Imports : Type := {
  (** numpy arrays: the values of network parameters *)
  ndarray : Type;
  (** [x.dtype] and [x.shape] *)
  ndarray_dtype : ndarray → dtype;
  ndarray_shape : ndarray → shape;
  (** [numpy.asarray(x, dtype=dt)], [None] when [x] cannot be converted: it
      yields an array of that dtype and of the shape of [x], and [x] itself
      when [x] has the dtype already *)
  ndarray_astype : dtype → ndarray → option ndarray;
  astype_dtype : ∀ dt x y, ndarray_astype dt x = Some y → ndarray_dtype y = dt;
  astype_shape : ∀ dt x y,
    ndarray_astype dt x = Some y → ndarray_shape y = ndarray_shape x;
  astype_same : ∀ x, ndarray_astype (ndarray_dtype x) x = Some x;
  (** any other Python object handed to a method *)
  pyobj : Type;
  (** the arguments bound by [Policy.__init__], as [locals()] sees them *)
  locals : Type;
  (** what [Serializable.quick_init] keeps in the object *)
  serial : Type;
  (** what [Serializable.__getstate__] returns *)
  pickled_args : Type;
  (** [maml_zoo.utils.utils.remove_scope_from_name(var_name, scope)] *)
  remove_scope_from_name : string → string → string;
  (** the filter of [tf.get_collection(key, scope)]: [re.match(scope, name)] *)
  scope_match : string → string → bool;
}.

(** ** The TensorFlow graph and session *)

Section TensorFlow.
Context `{Imports}.

Record tfVariable : Type := {
  var_id : nat;
  var_name : string;
  var_shape : shape;
  var_dtype : dtype;
  var_init : ndarray;
}.

Record Placeholder : Type := {
  ph_id : nat;
  ph_dtype : dtype;
  ph_shape : option shape;
}.

(** [tf.assign(ref, value)] *)
Record AssignOp : Type := tf_assign {
  assign_ref : tfVariable;
  assign_value : Placeholder;
}.

(** The default graph (its global variables, its collections, the next
    free node id) and the default session (the values of the initialised
    variables, by variable id). *)
Record TF : Type := {
  tf_global_variables : list tfVariable;
  tf_collections : gmap string (list tfVariable);
  tf_next_id : nat;
  tf_store : gmap nat ndarray;
}.

Definition set_next_id (n : nat) (g : TF) : TF :=
  {| tf_global_variables := tf_global_variables g;
     tf_collections := tf_collections g;
     tf_next_id := n;
     tf_store := tf_store g |}.

Definition set_store (s : gmap nat ndarray) (g : TF) : TF :=
  {| tf_global_variables := tf_global_variables g;
     tf_collections := tf_collections g;
     tf_next_id := tf_next_id g;
     tf_store := s |}.

(** The world a method of an object of type [O] runs in. *)
Record World (O : Type) : Type := {
  self : O;
  tf : TF;
}.
Arguments self {O} _.
Arguments tf {O} _.

Definition on_self {O : Type} (f : O → O) (w : World O) : World O :=
  {| self := f (self w); tf := tf w |}.

Definition on_tf {O : Type} (f : TF → TF) (w : World O) : World O :=
  {| self := self w; tf := f (tf w) |}.

(** [tf.placeholder(dtype, shape)]: a fresh node of the graph. *)
Definition tf_placeholder {O : Type} (dt : dtype) (sh : option shape)
  : M (World O) Placeholder :=
  λ w,
    let n := tf_next_id (tf w) in
    (Ret {| ph_id := n; ph_dtype := dt; ph_shape := sh |},
     on_tf (set_next_id (S n)) w).

(** [tf.get_collection(key, scope=scope)] *)
Definition tf_get_collection {O : Type} (key scope : string)
  : M (World O) (list tfVariable) :=
  gets (λ w,
    filter (λ v, scope_match scope (var_name v) = true)
           (default [] (tf_collections (tf w) !! key))).

(** An array of the dtype and the shape of a variable. *)
Definition is_value_of (v : tfVariable) (x : ndarray) : bool :=
  bool_decide (ndarray_dtype x = var_dtype v)
  && bool_decide (ndarray_shape x = var_shape v).

(** The value a variable holds in a session.  A session keeps for a
    variable only arrays of its dtype and shape (the initialiser gives it
    one, and an assignment checks the shape of what it writes): an entry
    of the store that is not such an array is no value of the variable. *)
Definition tf_value (s : gmap nat ndarray) (v : tfVariable) : option ndarray :=
  match s !! var_id v with
  | Some x => if is_value_of v x then Some x else None
  | None => None
  end.

(** The value of every variable of a dict, under the dict's keys. *)
Definition fetch_dict (s : gmap nat ndarray) (d : odict tfVariable)
  : option (odict ndarray) :=
  mapM (λ kv : string * tfVariable, (λ x, (kv.1, x)) <$> tf_value s kv.2) d.

(** [tf.get_default_session().run(d)] for a dict [d] of variables: a dict of
    the same keys; reading an uninitialised variable fails. *)
Definition session_run_fetch {O : Type} (d : odict tfVariable)
  : M (World O) (odict ndarray) :=
  λ w,
    match fetch_dict (tf_store (tf w)) d with
    | Some r => (Ret r, w)
    | None => (Raise FailedPreconditionError, w)
    end.

(** A feed dict: a Python dict from placeholders to arrays, in insertion
    order; a placeholder is a key by its identity, the node id.
    [feed_dict[ph] = x]: *)
Fixpoint feed_setitem (ph : Placeholder) (x : ndarray)
  (feed : list (Placeholder * ndarray)) : list (Placeholder * ndarray) :=
  match feed with
  | [] => [(ph, x)]
  | (ph', x') :: feed' =>
      if decide (ph_id ph' = ph_id ph) then (ph', x) :: feed'
      else (ph', x') :: feed_setitem ph x feed'
  end.

(** What a run feeds into a placeholder for an array: the array converted
    to the placeholder's dtype, which must have the placeholder's shape
    when it declares one. *)
Definition feed_value (ph : Placeholder) (x : ndarray) : option ndarray :=
  match ndarray_astype (ph_dtype ph) x with
  | Some y =>
      match ph_shape ph with
      | Some sh => if bool_decide (ndarray_shape y = sh) then Some y else None
      | None => Some y
      end
  | None => None
  end.

(** All the feeds of a run, by node id; they are converted before any op
    runs. *)
Definition convert_feed (feed : list (Placeholder * ndarray))
  : option (list (nat * ndarray)) :=
  mapM (λ e : Placeholder * ndarray, (λ y, (ph_id e.1, y)) <$> feed_value e.1 e.2)
       feed.

Fixpoint fed_value (k : nat) (fed : list (nat * ndarray)) : option ndarray :=
  match fed with
  | [] => None
  | (k', y) :: fed' => if decide (k' = k) then Some y else fed_value k fed'
  end.

(** The assign ops of a run, in order, on the variable store.  An op needs
    its placeholder fed, and the fed array must have the shape of the
    variable; otherwise the run fails.  (TensorFlow does not say which of
    the other assignments of a failing run take place: here the ones
    before the failing op do.) *)
Fixpoint run_assign_ops (ops : list AssignOp) (fed : list (nat * ndarray))
  (s : gmap nat ndarray) : result unit * gmap nat ndarray :=
  match ops with
  | [] => (Ret (), s)
  | op :: ops' =>
      match fed_value (ph_id (assign_value op)) fed with
      | Some y =>
          if bool_decide (ndarray_shape y = var_shape (assign_ref op))
          then run_assign_ops ops' fed (<[var_id (assign_ref op) := y]> s)
          else (Raise InvalidArgumentError, s)
      | None => (Raise InvalidArgumentError, s)
      end
  end.

(** [tf.get_default_session().run(assign_ops, feed_dict=feed_dict)]: a
    feed that cannot be converted is a [ValueError] before anything runs,
    a failing op an [InvalidArgumentError]. *)
Definition session_run_assign {O : Type} (ops : list AssignOp)
  (feed : list (Placeholder * ndarray)) : M (World O) unit :=
  λ w,
    match convert_feed feed with
    | Some fed =>
        let r := run_assign_ops ops fed (tf_store (tf w)) in
        (r.1, on_tf (set_store r.2) w)
    | None => (Raise ValueError, w)
    end.

(** [tf.get_default_session().run(tf.global_variables_initializer())] *)
Definition session_run_global_variables_initializer {O : Type}
  : M (World O) unit :=
  modify (on_tf (λ g,
    set_store
      (foldl (λ s v, <[var_id v := var_init v]> s) (tf_store g)
             (tf_global_variables g)) g)).

End TensorFlow.

Arguments self {_ O} _.
Arguments tf {_ O} _.

(** ** class Policy(Serializable) *)

Module Policy.
Section Policy.
Context `{Imports}.

(** The attributes of a policy object.  [policy_params] is [None] while
    the attribute is not set: [__init__] does not set it, the subclasses
    do when they build their graph.  The two [param_assign] attributes hold
    Python's [None] or a list. *)
Record instance : Type := {
  serializable : serial;
  param_assign_ops : option (list AssignOp);
  param_assign_placeholders : option (list Placeholder);
  policy_params : option (odict tfVariable);
}.

(** The base class [maml_zoo.utils.Serializable], imported by the module. *)
Class Serializable : Type := {
  quick_init : locals → serial;
  Serializable___getstate__ : M (World instance) pickled_args;
  Serializable___setstate__ : pickled_args → M (World instance) unit;
}.
Context `{Serializable}.

Definition __init__ (args : locals) : instance :=
  {| serializable := quick_init args;
     param_assign_ops := None;
     param_assign_placeholders := None;
     policy_params := None |}.

Definition build_graph : M (World instance) unit :=
  raise NotImplementedError.

Definition get_action (observation : pyobj) : M (World instance) pyobj :=
  raise NotImplementedError.

Definition get_actions (observations : pyobj) : M (World instance) pyobj :=
  raise NotImplementedError.

Definition reset (dones : option pyobj) : M (World instance) unit :=
  mret ().

Definition log_diagnostics (paths : pyobj) : M (World instance) unit :=
  mret ().

Definition distribution : M (World instance) pyobj :=
  raise NotImplementedError.

Definition distribution_info_sym (obs_var : pyobj) (params : option pyobj)
  : M (World instance) (odict pyobj) :=
  raise NotImplementedError.

Definition distribution_info_keys (obs state_infos : pyobj)
  : M (World instance) (odict pyobj) :=
  raise NotImplementedError.

(** The attribute read [self.policy_params]. *)
Definition self_policy_params : M (World instance) (odict tfVariable) :=
  λ w,
    match policy_params (self w) with
    | Some d => (Ret d, w)
    | None => (Raise AttributeError, w)
    end.

Definition get_params : M (World instance) (odict tfVariable) :=
  self_policy_params.

Definition get_param_values : M (World instance) (odict ndarray) :=
  d ← self_policy_params;
  param_values ← session_run_fetch d;
  mret param_values.

(** The body of the [for] loop of [set_params], over the zipped list. *)
Fixpoint set_params_loop
  (l : list (tfVariable * (string * ndarray)))
  (assign_ops : list AssignOp) (feed_dict : list (Placeholder * ndarray))
  : M (World instance) (list AssignOp * list (Placeholder * ndarray)) :=
  match l with
  | [] => mret (assign_ops, feed_dict)
  | (var, (param_name, var_value)) :: l' =>
      assign_placeholder ← tf_placeholder (var_dtype var) None;
      let assign_op := tf_assign var assign_placeholder in
      set_params_loop l' (assign_ops ++ [assign_op])
        (feed_setitem assign_placeholder var_value feed_dict)
  end.

Definition keys_match (ks1 ks2 : list string) : bool :=
  forallb (λ kk : string * string, bool_decide (kk.1 = kk.2)) (zip ks1 ks2).

Definition set_params (policy_params : odict ndarray)
  : M (World instance) unit :=
  ps ← get_params;
  py_assert (keys_match (odict_keys ps) (odict_keys policy_params));;
  ps' ← get_params;
  r ← set_params_loop (zip (odict_values ps') (odict_items policy_params)) [] [];
  session_run_assign r.1 r.2.

(** The dict built by [__getstate__]. *)
Record state : Type := {
  init_args : pickled_args;
  network_params : odict ndarray;
}.

Definition __getstate__ : M (World instance) state :=
  a ← Serializable___getstate__;
  v ← get_param_values;
  mret {| init_args := a; network_params := v |}.

Definition __setstate__ (st : state) : M (World instance) unit :=
  Serializable___setstate__ (init_args st);;
  session_run_global_variables_initializer;;
  set_params (network_params st).

End Policy.
End Policy.

(** ** class MetaPolicy(Policy) *)

Module MetaPolicy.
Section MetaPolicy.
Context `{Policy.Serializable}.

(** [policies_params_vals] holds Python's [None] or the list of per-task
    parameter dicts. *)
Record instance : Type := {
  super : Policy.instance;
  _pre_update_mode : bool;
  policies_params_vals : option (list (odict ndarray));
}.

Definition __init__ (args : locals) : instance :=
  {| super := Policy.__init__ args;
     _pre_update_mode := true;
     policies_params_vals := None |}.

Definition build_graph : M (World instance) unit :=
  raise NotImplementedError.

(** The argument [scopes], by its Python type. *)
Inductive scopes_arg : Type :=
| scopes_list (l : list string)
| scopes_tuple (l : list string)
| scopes_other (o : pyobj).

Definition isinstance_list (s : scopes_arg) : bool :=
  match s with scopes_list _ => true | _ => false end.

Definition isinstance_tuple (s : scopes_arg) : bool :=
  match s with scopes_tuple _ => true | _ => false end.

(** The elements a [for] loop over [scopes] visits. *)
Definition scopes_iter (s : scopes_arg) : list string :=
  match s with
  | scopes_list l | scopes_tuple l => l
  | scopes_other _ => []
  end.

(** [OrderedDict([(remove_scope_from_name(var.name, scope),
                   tf.placeholder(tf.float32, shape=var.shape))
                  for var in var_list])] *)
Definition placeholder_dict (scope : string) (var_list : list tfVariable)
  : M (World instance) (odict Placeholder) :=
  pairs ← mapM (λ var,
             let name := remove_scope_from_name (var_name var) scope in
             ph ← tf_placeholder float32 (Some (var_shape var));
             mret (name, ph)) var_list;
  mret (OrderedDict pairs).

Definition _create_placeholders_for_vars (scopes : scopes_arg)
  (meta_batch_size : Z) (graph_keys : string)
  : M (World instance) (list (list (odict Placeholder))) :=
  py_assert (isinstance_list scopes || isinstance_tuple scopes);;
  placeholders ← mapM (λ scope,
      var_list ← tf_get_collection graph_keys scope;
      mapM (λ _ : Z, placeholder_dict scope var_list)
           (py_range meta_batch_size))
    (scopes_iter scopes);
  mret placeholders.

Definition switch_to_pre_update : M (World instance) unit :=
  modify (on_self (λ o,
    {| super := super o;
       _pre_update_mode := true;
       policies_params_vals := policies_params_vals o |}));;
  modify (on_self (λ o,
    {| super := super o;
       _pre_update_mode := _pre_update_mode o;
       policies_params_vals := None |})).

(** The two methods [get_actions] calls on [self]; a subclass overrides
    them. *)
Class Overridable : Type := {
  _get_pre_update_actions : pyobj → M (World instance) pyobj;
  _get_post_update_actions : pyobj → M (World instance) pyobj;
}.

Definition get_actions {impl : Overridable} (observations : pyobj)
  : M (World instance) pyobj :=
  λ w,
    if _pre_update_mode (self w)
    then _get_pre_update_actions observations w
    else _get_post_update_actions observations w.

(** [MetaPolicy] itself. *)
#[export] Instance base : Overridable := {|
  _get_pre_update_actions := λ observations, raise NotImplementedError;
  _get_post_update_actions := λ observations, raise NotImplementedError;
|}.

Definition update_task_parameters
  (updated_policies_parameters : option (list (odict ndarray)))
  : M (World instance) unit :=
  modify (on_self (λ o,
    {| super := super o;
       _pre_update_mode := _pre_update_mode o;
       policies_params_vals := updated_policies_parameters |}));;
  modify (on_self (λ o,
    {| super := super o;
       _pre_update_mode := false;
       policies_params_vals := policies_params_vals o |})).

(** A method inherited from [Policy], run on a [MetaPolicy] object. *)
Definition inherited {A : Type} (m : M (World Policy.instance) A)
  : M (World instance) A :=
  λ w,
    let r := m {| self := super (self w); tf := tf w |} in
    (r.1,
     {| self := {| super := self r.2;
                   _pre_update_mode := _pre_update_mode (self w);
                   policies_params_vals := policies_params_vals (self w) |};
        tf := tf r.2 |}).

End MetaPolicy.
End MetaPolicy.

(** ** Calls

    Every method of the two classes with its arguments, and what a call
    does on a [MetaPolicy] object (the methods of [Policy] are inherited;
    [Policy.build_graph] and [Policy.get_actions] are reached through
    [super]). *)

Section Calls.
Context `{Policy.Serializable}.

Inductive call : Type :=
| Policy_build_graph
| Policy_get_action (observation : pyobj)
| Policy_get_actions (observations : pyobj)
| Policy_reset (dones : option pyobj)
| Policy_log_diagnostics (paths : pyobj)
| Policy_distribution
| Policy_distribution_info_sym (obs_var : pyobj) (params : option pyobj)
| Policy_distribution_info_keys (obs state_infos : pyobj)
| Policy_get_params
| Policy_get_param_values
| Policy_set_params (policy_params : odict ndarray)
| Policy___getstate__
| Policy___setstate__ (st : Policy.state)
| MetaPolicy_build_graph
| MetaPolicy__create_placeholders_for_vars
    (scopes : MetaPolicy.scopes_arg) (meta_batch_size : Z) (graph_keys : string)
| MetaPolicy_switch_to_pre_update
| MetaPolicy_get_actions (observations : pyobj)
| MetaPolicy__get_pre_update_actions (observations : pyobj)
| MetaPolicy__get_post_update_actions (observations : pyobj)
| MetaPolicy_update_task_parameters
    (updated_policies_parameters : option (list (odict ndarray))).

Inductive retval : Type :=
| PyNone
| PyObj (o : pyobj)
| PyInfo (d : odict pyobj)
| PyParams (d : odict tfVariable)
| PyValues (d : odict ndarray)
| PyState (st : Policy.state)
| PyPlaceholders (l : list (list (odict Placeholder))).

Definition returning {S A : Type} (f : A → retval) (m : M S A) : M S retval :=
  a ← m; mret (f a).

Definition exec (c : call) : M (World MetaPolicy.instance) retval :=
  match c with
  | Policy_build_graph =>
      returning (λ _, PyNone) (MetaPolicy.inherited Policy.build_graph)
  | Policy_get_action o =>
      returning PyObj (MetaPolicy.inherited (Policy.get_action o))
  | Policy_get_actions o =>
      returning PyObj (MetaPolicy.inherited (Policy.get_actions o))
  | Policy_reset dones =>
      returning (λ _, PyNone) (MetaPolicy.inherited (Policy.reset dones))
  | Policy_log_diagnostics paths =>
      returning (λ _, PyNone) (MetaPolicy.inherited (Policy.log_diagnostics paths))
  | Policy_distribution =>
      returning PyObj (MetaPolicy.inherited Policy.distribution)
  | Policy_distribution_info_sym o p =>
      returning PyInfo (MetaPolicy.inherited (Policy.distribution_info_sym o p))
  | Policy_distribution_info_keys o s =>
      returning PyInfo (MetaPolicy.inherited (Policy.distribution_info_keys o s))
  | Policy_get_params =>
      returning PyParams (MetaPolicy.inherited Policy.get_params)
  | Policy_get_param_values =>
      returning PyValues (MetaPolicy.inherited Policy.get_param_values)
  | Policy_set_params p =>
      returning (λ _, PyNone) (MetaPolicy.inherited (Policy.set_params p))
  | Policy___getstate__ =>
      returning PyState (MetaPolicy.inherited Policy.__getstate__)
  | Policy___setstate__ st =>
      returning (λ _, PyNone) (MetaPolicy.inherited (Policy.__setstate__ st))
  | MetaPolicy_build_graph =>
      returning (λ _, PyNone) MetaPolicy.build_graph
  | MetaPolicy__create_placeholders_for_vars scopes m k =>
      returning PyPlaceholders (MetaPolicy._create_placeholders_for_vars scopes m k)
  | MetaPolicy_switch_to_pre_update =>
      returning (λ _, PyNone) MetaPolicy.switch_to_pre_update
  | MetaPolicy_get_actions o =>
      returning PyObj (MetaPolicy.get_actions (impl := MetaPolicy.base) o)
  | MetaPolicy__get_pre_update_actions o =>
      returning PyObj (MetaPolicy._get_pre_update_actions (Overridable := MetaPolicy.base) o)
  | MetaPolicy__get_post_update_actions o =>
      returning PyObj (MetaPolicy._get_post_update_actions (Overridable := MetaPolicy.base) o)
  | MetaPolicy_update_task_parameters p =>
      returning (λ _, PyNone) (MetaPolicy.update_task_parameters p)
  end.

End Calls.

(** ** Notions the properties are stated with *)

Section Notions.
Context `{Policy.Serializable}.

(** The states a [MetaPolicy] object goes through: built by [__init__],
    then any sequence of [switch_to_pre_update] and
    [update_task_parameters] calls, the latter with an argument that is not
    [None]. *)
Inductive reachable : World MetaPolicy.instance → Prop :=
| reachable_init (args : locals) (g : TF) :
    reachable {| self := MetaPolicy.__init__ args; tf := g |}
| reachable_switch (w : World MetaPolicy.instance) :
    reachable w → reachable (MetaPolicy.switch_to_pre_update w).2
| reachable_update (w : World MetaPolicy.instance) (p : list (odict ndarray)) :
    reachable w → reachable (MetaPolicy.update_task_parameters (Some p) w).2.

(** Pre-update mode exactly when no per-task parameters are held. *)
Definition mode_invariant (o : MetaPolicy.instance) : Prop :=
  MetaPolicy._pre_update_mode o = true ↔ MetaPolicy.policies_params_vals o = None.

(** Two key sequences differ at a position both have. *)
Definition keys_differ (ks1 ks2 : list string) : Prop :=
  ∃ (i : nat) (k1 k2 : string),
    ks1 !! i = Some k1 ∧ ks2 !! i = Some k2 ∧ k1 ≠ k2.

(** What is written into a variable for an array that [set_params] feeds
    for it: the array converted to the dtype of the variable, which must
    have the shape of the variable; [None] when the run refuses it. *)
Definition tf_convert (v : tfVariable) (x : ndarray) : option ndarray :=
  match ndarray_astype (var_dtype v) x with
  | Some y =>
      if bool_decide (ndarray_shape y = var_shape v) then Some y else None
  | None => None
  end.

(** The dict of the values [set_params] writes for a dict: every zipped
    value converted for its variable, under its key; [None] when one of
    them is refused. *)
Definition convert_params (ps : odict tfVariable) (pp : odict ndarray)
  : option (odict ndarray) :=
  mapM (λ e : tfVariable * (string * ndarray),
          (λ y, (e.2.1, y)) <$> tf_convert e.1 e.2.2)
       (zip (odict_values ps) (odict_items pp)).

(** The zipped values of [set_params], each converted to the dtype of its
    variable, as the feeds of the run are; [None] when one cannot be. *)
Definition casts (l : list (tfVariable * (string * ndarray)))
  : option (list ndarray) :=
  mapM (λ e : tfVariable * (string * ndarray),
          ndarray_astype (var_dtype e.1) e.2.2) l.

(** The placeholder the loop of [set_params] makes for a variable when the
    next free node is [n], and the ops and the feeds it adds for a zipped
    list from there on. *)
Definition assign_placeholder_at (n : nat) (v : tfVariable) : Placeholder :=
  {| ph_id := n; ph_dtype := var_dtype v; ph_shape := None |}.

Fixpoint new_ops (n : nat) (l : list (tfVariable * (string * ndarray)))
  : list AssignOp :=
  match l with
  | [] => []
  | e :: l' => tf_assign e.1 (assign_placeholder_at n e.1) :: new_ops (S n) l'
  end.

Fixpoint new_feeds (n : nat) (l : list (tfVariable * (string * ndarray)))
  : list (Placeholder * ndarray) :=
  match l with
  | [] => []
  | e :: l' => (assign_placeholder_at n e.1, e.2.2) :: new_feeds (S n) l'
  end.

(** Writing arrays into variables in order, each checked for the shape of
    its variable, up to the first one that is refused. *)
Fixpoint write_all (l : list (tfVariable * ndarray)) (s : gmap nat ndarray)
  : result unit * gmap nat ndarray :=
  match l with
  | [] => (Ret (), s)
  | e :: l' =>
      if bool_decide (ndarray_shape e.2 = var_shape e.1)
      then write_all l' (<[var_id e.1 := e.2]> s)
      else (Raise InvalidArgumentError, s)
  end.

(** The store after assigning, left to right, a value to each variable. *)
Definition assign_all (l : list (tfVariable * ndarray)) (s : gmap nat ndarray)
  : gmap nat ndarray :=
  foldl (λ s p, <[var_id p.1 := p.2]> s) s l.

(** The store after the global variables initializer has run. *)
Definition initialized (g : TF) : gmap nat ndarray :=
  foldl (λ s v, <[var_id v := var_init v]> s) (tf_store g) (tf_global_variables g).

(** The variables [tf.get_collection(key, scope)] returns in a graph. *)
Definition collected (g : TF) (key scope : string) : list tfVariable :=
  filter (λ v, scope_match scope (var_name v) = true)
         (default [] (tf_collections g !! key)).

(** The key of a variable in the dict of a scope. *)
Definition stripped (scope : string) (var : tfVariable) : string :=
  remove_scope_from_name (var_name var) scope.

(** A placeholder dict entry stands for a variable of a scope. *)
Definition placeholder_for (scope : string) (var : tfVariable)
  (kp : string * Placeholder) : Prop :=
  kp.1 = stripped scope var ∧
  ph_dtype kp.2 = float32 ∧
  ph_shape kp.2 = Some (var_shape var).

(** A dict maps the stripped name of every variable of a list to a
    [float32] placeholder with the shape of the last variable of the list
    that has this stripped name: the variable itself when the stripped
    names are pairwise distinct. *)
Definition maps_variables (scope : string) (var_list : list tfVariable)
  (d : odict Placeholder) : Prop :=
  ∀ var, var ∈ var_list →
    ∃ (ph : Placeholder) (var' : tfVariable),
      odict_get (stripped scope var) d = Some ph ∧
      ph_dtype ph = float32 ∧
      last (filter (λ v, stripped scope v = stripped scope var) var_list)
      = Some var' ∧
      ph_shape ph = Some (var_shape var') ∧
      (NoDup (stripped scope <$> var_list) → var' = var).

(** A dict of placeholders stands for the variables collected for a scope:
    it is the [OrderedDict] of one pair per variable, holds exactly these
    pairs when their keys are pairwise distinct, and maps the variables. *)
Definition placeholder_dict_for (scope : string) (var_list : list tfVariable)
  (d : odict Placeholder) : Prop :=
  (∃ pairs : list (string * Placeholder),
     d = OrderedDict pairs ∧
     Forall2 (placeholder_for scope) var_list pairs ∧
     (NoDup pairs.*1 → d = pairs)) ∧
  maps_variables scope var_list d.

(** Creating placeholders only advances the node counter of the graph. *)
Definition same_but_nodes {O : Type} (w w' : World O) : Prop :=
  self w' = self w ∧
  tf_global_variables (tf w') = tf_global_variables (tf w) ∧
  tf_collections (tf w') = tf_collections (tf w) ∧
  tf_store (tf w') = tf_store (tf w) ∧
  tf_next_id (tf w) ≤ tf_next_id (tf w').

(** The node ids of the placeholders a result of
    [_create_placeholders_for_vars] holds: of a dict, of the dicts of a
    scope, of the whole result. *)
Definition dict_ids (d : odict Placeholder) : list nat :=
  ph_id <$> odict_values d.

Definition entry_ids (entry : list (odict Placeholder)) : list nat :=
  concat (dict_ids <$> entry).

Definition placeholders_ids (placeholders : list (list (odict Placeholder)))
  : list nat :=
  concat (entry_ids <$> placeholders).

(** The next free node id of the graph of a world. *)
Definition next_node {O : Type} (w : World O) : nat := tf_next_id (tf w).

(** How the body of a method ends. *)
Inductive method_kind : Type :=
| abstract_stub      (** [raise NotImplementedError] and nothing else *)
| dispatch_to_stubs  (** calls one of two stubs of the same class *)
| empty_body         (** [pass] *)
| mode_switch        (** assigns the two mode attributes *)
| working            (** reads or writes parameters, builds placeholders *)
| pickling.          (** starts with a call of the [Serializable] base class *)

Definition kind_of (c : call) : method_kind :=
  match c with
  | Policy_build_graph | Policy_get_action _ | Policy_get_actions _
  | Policy_distribution | Policy_distribution_info_sym _ _
  | Policy_distribution_info_keys _ _
  | MetaPolicy_build_graph
  | MetaPolicy__get_pre_update_actions _
  | MetaPolicy__get_post_update_actions _ => abstract_stub
  | MetaPolicy_get_actions _ => dispatch_to_stubs
  | Policy_reset _ | Policy_log_diagnostics _ => empty_body
  | MetaPolicy_switch_to_pre_update
  | MetaPolicy_update_task_parameters _ => mode_switch
  | Policy_get_params | Policy_get_param_values | Policy_set_params _
  | MetaPolicy__create_placeholders_for_vars _ _ _ => working
  | Policy___getstate__ | Policy___setstate__ _ => pickling
  end.

(** The world an inherited method sees. *)
Definition policy_world (w : World MetaPolicy.instance) : World Policy.instance :=
  {| self := MetaPolicy.super (self w); tf := tf w |}.

(** The call of the [Serializable] base class a pickling method starts
    with raises [e]. *)
Definition serializable_raises (e : exn) (c : call)
  (w : World Policy.instance) : Prop :=
  match c with
  | Policy___getstate__ => raises e Policy.Serializable___getstate__ w
  | Policy___setstate__ st =>
      raises e (Policy.Serializable___setstate__ (Policy.init_args st)) w
  | _ => False
  end.

(** The assertion of the [set_params] call that ends [__setstate__]
    fails: the base class has rebuilt the object with parameters whose keys
    differ from the saved ones. *)
Definition rebuilt_keys_differ (st : Policy.state)
  (w : World Policy.instance) : Prop :=
  ∃ (w' : World Policy.instance) (ps : odict tfVariable),
    Policy.Serializable___setstate__ (Policy.init_args st) w = (Ret (), w') ∧
    Policy.policy_params (self w') = Some ps ∧
    keys_differ (odict_keys ps) (odict_keys (Policy.network_params st)).

End Notions.

(** ** A concrete setting: a two-parameter policy *)

Module Example.

(** An array of the example: a dtype, a shape, and one integer that fills
    it. *)
Record array : Type := {
  arr_dtype : dtype;
  arr_shape : shape;
  arr_fill : Z;
}.

(** The multiple of [q] nearest to [z], the even one of two at the same
    distance. *)
Definition round_to (q z : Z) : Z :=
  let d := (z `div` q)%Z in
  let r := (z `mod` q)%Z in
  if (2 * r <? q)%Z then (d * q)%Z
  else if (q <? 2 * r)%Z then ((d + 1) * q)%Z
  else if Z.even d then (d * q)%Z else ((d + 1) * q)%Z.

(** An integer as a float with a significand of [p] bits (24 for
    [float32], 53 for [float64]); overflow is left out. *)
Definition to_float (p z : Z) : Z :=
  let e := Z.log2 (Z.abs z) in
  if (e <? p)%Z then z else round_to (2 ^ (e - p + 1)) z.

(** An integer in an element of a dtype; [int32] wraps around. *)
Definition to_dtype (dt : dtype) (z : Z) : Z :=
  match dt with
  | float32 => to_float 24 z
  | float64 => to_float 53 z
  | int32 => ((z + 2 ^ 31) `mod` 2 ^ 32 - 2 ^ 31)%Z
  end.

(** [numpy.full(sh, z, dtype=dt)], and [numpy.full(sh, z, dtype=float32)] *)
Definition full_of (dt : dtype) (sh : shape) (z : Z) : array :=
  {| arr_dtype := dt; arr_shape := sh; arr_fill := to_dtype dt z |}.

Definition full (sh : shape) (z : Z) : array := full_of float32 sh z.

(** [numpy.asarray(x, dtype=dt)]: [x] itself when it has the dtype. *)
Definition astype (dt : dtype) (x : array) : option array :=
  if decide (arr_dtype x = dt) then Some x
  else Some (full_of dt (arr_shape x) (arr_fill x)).

(** Names are stripped of the scope and the slash after it, and a scope
    selects the names it is a prefix of. *)
Definition imports : Imports.
Proof.
  refine
    {| ndarray := array;
       ndarray_dtype := arr_dtype;
       ndarray_shape := arr_shape;
       ndarray_astype := astype;
       astype_dtype := _;
       astype_shape := _;
       astype_same := _;
       pyobj := unit;
       locals := unit;
       serial := unit;
       pickled_args := unit;
       remove_scope_from_name := λ name scope,
         String.substring (S (String.length scope))
           (String.length name - S (String.length scope)) name;
       scope_match := String.prefix |}.
  - abstract (intros dt x y; unfold astype;
              destruct (decide (arr_dtype x = dt)); intros [= <-]; done).
  - abstract (intros dt x y; unfold astype;
              destruct (decide (arr_dtype x = dt)); intros [= <-]; done).
  - abstract (intros x; unfold astype; rewrite decide_True by reflexivity;
              reflexivity).
Defined.
#[local] Existing Instance imports.

Definition W : tfVariable :=
  {| var_id := 0; var_name := "policy/W"; var_shape := [4; 2]%Z;
     var_dtype := float32; var_init := full [4; 2]%Z 0 |}.

Definition b : tfVariable :=
  {| var_id := 1; var_name := "policy/b"; var_shape := [2]%Z;
     var_dtype := float32; var_init := full [2]%Z 0 |}.

Definition params : odict tfVariable := [("W"%string, W); ("b"%string, b)].

Definition built : Policy.instance :=
  {| Policy.serializable := ();
     Policy.param_assign_ops := None;
     Policy.param_assign_placeholders := None;
     Policy.policy_params := Some params |}.

(** A [Serializable] whose [__setstate__] rebuilds the two-parameter
    policy, as the constructor of a subclass does. *)
Definition serializable : Policy.Serializable :=
  {| Policy.quick_init := λ _, ();
     Policy.Serializable___getstate__ := mret ();
     Policy.Serializable___setstate__ := λ _, modify (on_self (λ _, built)) |}.
#[local] Existing Instance serializable.

Definition graph (s : gmap nat array) : TF :=
  {| tf_global_variables := [W; b];
     tf_collections := {[ "trainable_variables"%string := [W; b] ]};
     tf_next_id := 2;
     tf_store := s |}.

(** A trained policy, and a fresh object in a session that has nothing
    initialised. *)
Definition trained : World Policy.instance :=
  {| self := built;
     tf := graph {[ 0 := full [4; 2]%Z 7; 1 := full [2]%Z 9 ]} |}.

Definition blank : World Policy.instance :=
  {| self := Policy.__init__ (); tf := graph ∅ |}.

Definition meta (s : gmap nat array) : World MetaPolicy.instance :=
  {| self := {| MetaPolicy.super := built;
                MetaPolicy._pre_update_mode := true;
                MetaPolicy.policies_params_vals := None |};
     tf := graph s |}.

(** Two pickled states: one that holds [W] only, one that starts with
    [b]. *)
Definition saved_W : Policy.state :=
  {| Policy.init_args := ();
     Policy.network_params := [("W"%string, full [4; 2]%Z 7)] |}.

Definition saved_b : Policy.state :=
  {| Policy.init_args := ();
     Policy.network_params := [("b"%string, full [2]%Z 9)] |}.

(** A subclass that answers with the mode it ran in. *)
Definition answering : MetaPolicy.Overridable :=
  {| MetaPolicy._get_pre_update_actions := λ o, mret o;
     MetaPolicy._get_post_update_actions := λ o, raise InvalidArgumentError |}.

End Example.

(** * Properties *)

Section Properties.
Context `{Policy.Serializable}.

(** ** The monad *)

Lemma bind_run {S A B : Type} (m : M S A) (f : A → M S B) (s : S) :
  (m ≫= f) s =
  match m s with
  | (Ret a, s') => f a s'
  | (Raise e, s') => (Raise e, s')
  end.
Proof. reflexivity. Qed.

Lemma bind_returns {S A B : Type} (m : M S A) (f : A → M S B) (s s' : S) (a : A) :
  m s = (Ret a, s') → (m ≫= f) s = f a s'.
Proof. intros Hm. rewrite bind_run, Hm. reflexivity. Qed.

Lemma bind_raises {S A B : Type} (m : M S A) (f : A → M S B) (s s' : S) (e : exn) :
  m s = (Raise e, s') → (m ≫= f) s = (Raise e, s').
Proof. intros Hm. rewrite bind_run, Hm. reflexivity. Qed.

(** A loop that collects results keeps what each round keeps. *)
Lemma mapM_keeps {S A B : Type} (J : S → Prop) (R : A → B → Prop) (f : A → M S B) :
  (∀ x s, J s → ∃ y s', f x s = (Ret y, s') ∧ R x y ∧ J s') →
  ∀ l s, J s → ∃ ys s', mapM f l s = (Ret ys, s') ∧ Forall2 R l ys ∧ J s'.
Proof.
  intros Hf l. induction l as [|x l IH]; intros s Hs.
  - exists [], s. repeat split; [constructor | exact Hs].
  - destruct (Hf x s Hs) as (y & s1 & Hy & HR & Hs1).
    destruct (IH s1 Hs1) as (ys & s2 & Hys & HRs & Hs2).
    exists (y :: ys), s2. split; [|split; [constructor; assumption | exact Hs2]].
    cbn [mapM]. rewrite (bind_returns _ _ _ _ _ Hy).
    rewrite (bind_returns _ _ _ _ _ Hys). reflexivity.
Qed.

(** ** The abstract methods *)

(** C1: [build_graph], [get_action] and [distribution_info_sym] of
    [Policy] and [_get_post_update_actions] of [MetaPolicy] raise
    [NotImplementedError], whatever the object and the arguments are, and
    leave the state as it was. *)
Theorem abstract_methods_raise
  (w : World Policy.instance) (mw : World MetaPolicy.instance)
  (observation obs_var observations : pyobj) (params : option pyobj) :
  Policy.build_graph w = (Raise NotImplementedError, w) ∧
  Policy.get_action observation w = (Raise NotImplementedError, w) ∧
  Policy.distribution_info_sym obs_var params w = (Raise NotImplementedError, w) ∧
  MetaPolicy._get_post_update_actions (Overridable := MetaPolicy.base)
    observations mw = (Raise NotImplementedError, mw).
Proof. repeat split. Qed.

(** ** The update mode *)

Lemma update_task_parameters_run
  (w : World MetaPolicy.instance) (p : option (list (odict ndarray))) :
  MetaPolicy.update_task_parameters p w =
  (Ret (),
   {| self := {| MetaPolicy.super := MetaPolicy.super (self w);
                 MetaPolicy._pre_update_mode := false;
                 MetaPolicy.policies_params_vals := p |};
      tf := tf w |}).
Proof. reflexivity. Qed.

Lemma switch_to_pre_update_run (w : World MetaPolicy.instance) :
  MetaPolicy.switch_to_pre_update w =
  (Ret (),
   {| self := {| MetaPolicy.super := MetaPolicy.super (self w);
                 MetaPolicy._pre_update_mode := true;
                 MetaPolicy.policies_params_vals := None |};
      tf := tf w |}).
Proof. reflexivity. Qed.

(** C3: [update_task_parameters(p)] returns with [policies_params_vals]
    equal to [p] and the object in post-update mode;
    [switch_to_pre_update()] returns with the object in pre-update mode and
    [policies_params_vals] equal to [None].  Neither touches anything
    else. *)
Theorem update_then_switch
  (w : World MetaPolicy.instance) (p : list (odict ndarray)) :
  (∃ w', MetaPolicy.update_task_parameters (Some p) w = (Ret (), w') ∧
         MetaPolicy.policies_params_vals (self w') = Some p ∧
         MetaPolicy._pre_update_mode (self w') = false ∧
         MetaPolicy.super (self w') = MetaPolicy.super (self w) ∧
         tf w' = tf w) ∧
  (∃ w', MetaPolicy.switch_to_pre_update w = (Ret (), w') ∧
         MetaPolicy._pre_update_mode (self w') = true ∧
         MetaPolicy.policies_params_vals (self w') = None ∧
         MetaPolicy.super (self w') = MetaPolicy.super (self w) ∧
         tf w' = tf w).
Proof.
  split; eexists.
  - rewrite update_task_parameters_run. repeat split.
  - rewrite switch_to_pre_update_run. repeat split.
Qed.

Lemma init_mode_invariant (args : locals) :
  mode_invariant (MetaPolicy.__init__ args).
Proof. unfold mode_invariant. cbn. split; reflexivity. Qed.

(** C4: [__init__] starts in pre-update mode with [policies_params_vals]
    equal to [None], and every state reached from it by
    [switch_to_pre_update] and [update_task_parameters] calls with
    arguments other than [None] is in pre-update mode exactly when
    [policies_params_vals] is [None]. *)
Theorem reachable_mode_invariant (args : locals)
  (w : World MetaPolicy.instance) :
  (MetaPolicy._pre_update_mode (MetaPolicy.__init__ args) = true ∧
   MetaPolicy.policies_params_vals (MetaPolicy.__init__ args) = None) ∧
  (reachable w → mode_invariant (self w)).
Proof.
  split; [split; reflexivity|].
  induction 1 as [args' g | w Hw IH | w p Hw IH].
  - apply init_mode_invariant.
  - rewrite switch_to_pre_update_run. unfold mode_invariant. cbn.
    split; reflexivity.
  - rewrite update_task_parameters_run. unfold mode_invariant. cbn.
    split; discriminate.
Qed.

(** The restriction to arguments other than [None] is needed. *)
Lemma update_with_None_breaks_invariant (w : World MetaPolicy.instance) :
  ¬ mode_invariant (self (MetaPolicy.update_task_parameters None w).2).
Proof.
  rewrite update_task_parameters_run. unfold mode_invariant. cbn.
  intros [_ Hmode]. specialize (Hmode eq_refl). discriminate.
Qed.

(** C5: [get_actions] is the call of [_get_pre_update_actions] in
    pre-update mode and of [_get_post_update_actions] otherwise: same
    outcome, same final state, so nothing is changed by [get_actions]
    itself.  With the two methods of [MetaPolicy] itself it raises
    [NotImplementedError] in both modes and the state is as before. *)
Theorem get_actions_dispatch
  (impl : MetaPolicy.Overridable) (observations : pyobj)
  (w : World MetaPolicy.instance) :
  (MetaPolicy._pre_update_mode (self w) = true →
   MetaPolicy.get_actions observations w =
   MetaPolicy._get_pre_update_actions observations w) ∧
  (MetaPolicy._pre_update_mode (self w) = false →
   MetaPolicy.get_actions observations w =
   MetaPolicy._get_post_update_actions observations w) ∧
  MetaPolicy.get_actions (impl := MetaPolicy.base) observations w =
  (Raise NotImplementedError, w).
Proof.
  unfold MetaPolicy.get_actions. repeat split.
  - intros ->. reflexivity.
  - intros ->. reflexivity.
  - destruct (MetaPolicy._pre_update_mode (self w)); reflexivity.
Qed.

(** ** Placeholders for the variables of a scope *)

Lemma same_but_nodes_refl {O : Type} (w : World O) : same_but_nodes w w.
Proof. unfold same_but_nodes. repeat split. lia. Qed.

Lemma same_but_nodes_trans {O : Type} (w1 w2 w3 : World O) :
  same_but_nodes w1 w2 → same_but_nodes w2 w3 → same_but_nodes w1 w3.
Proof.
  unfold same_but_nodes.
  intros (Hs & Hg & Hc & Hst & Hn) (Hs' & Hg' & Hc' & Hst' & Hn').
  repeat split; try congruence. lia.
Qed.

Lemma tf_placeholder_run {O : Type} (dt : dtype) (sh : option shape) (w : World O) :
  ∃ ph w', tf_placeholder dt sh w = (Ret ph, w') ∧
           ph_dtype ph = dt ∧ ph_shape ph = sh ∧
           ph_id ph = tf_next_id (tf w) ∧
           tf_next_id (tf w') = S (tf_next_id (tf w)) ∧
           same_but_nodes w w'.
Proof.
  eexists _, _. split; [reflexivity|].
  unfold same_but_nodes. cbn. repeat split. lia.
Qed.

Lemma odict_setitem_new {V : Type} (k : string) (v : V) (d : odict V) :
  k ∉ d.*1 → odict_setitem k v d = d ++ [(k, v)].
Proof.
  induction d as [|[k' v'] d IH]; intros Hk; [reflexivity|].
  cbn in *. apply not_elem_of_cons in Hk as [Hne Hk].
  destruct (decide (k' = k)) as [->|_]; [done|].
  rewrite IH by assumption. reflexivity.
Qed.

Lemma OrderedDict_from {V : Type} (pairs acc : list (string * V)) :
  NoDup (acc ++ pairs).*1 →
  foldl (λ d kv, odict_setitem kv.1 kv.2 d) acc pairs = acc ++ pairs.
Proof.
  revert acc. induction pairs as [|[k v] pairs IH]; intros acc Hnd.
  - cbn. rewrite app_nil_r. reflexivity.
  - cbn [foldl fst snd].
    assert (Hk : k ∉ acc.*1).
    { rewrite fmap_app in Hnd. apply NoDup_app in Hnd as (_ & Hdisj & _).
      intros Hin. apply (Hdisj k Hin). cbn. left. }
    rewrite odict_setitem_new by exact Hk.
    rewrite IH; rewrite <- app_assoc; [reflexivity | exact Hnd].
Qed.

(** With pairwise distinct keys [OrderedDict] keeps every pair. *)
Lemma OrderedDict_distinct_keys {V : Type} (pairs : list (string * V)) :
  NoDup pairs.*1 → OrderedDict pairs = pairs.
Proof. intros Hnd. apply (OrderedDict_from pairs []). exact Hnd. Qed.

Lemma odict_get_setitem {V : Type} (k k' : string) (v : V) (d : odict V) :
  odict_get k (odict_setitem k' v d)
  = if decide (k' = k) then Some v else odict_get k d.
Proof.
  induction d as [|[k0 v0] d IH]; [reflexivity|].
  cbn. destruct (decide (k0 = k')) as [->|Hne]; cbn.
  - destruct (decide (k' = k)); reflexivity.
  - rewrite IH. destruct (decide (k0 = k)) as [->|]; [|reflexivity].
    destruct (decide (k' = k)); [congruence | reflexivity].
Qed.

Lemma NoDup_fmap_same {A B : Type} (f : A → B) (l : list A) (x y : A) :
  NoDup (f <$> l) → x ∈ l → y ∈ l → f x = f y → x = y.
Proof.
  induction l as [|a l IH]; intros Hnd Hx Hy Hxy; [by apply elem_of_nil in Hx|].
  cbn in Hnd. apply NoDup_cons in Hnd as [Ha Hnd].
  apply elem_of_cons in Hx as [-> | Hx]; apply elem_of_cons in Hy as [-> | Hy].
  - reflexivity.
  - exfalso. apply Ha. rewrite Hxy. apply list_elem_of_fmap. eauto.
  - exfalso. apply Ha. rewrite <- Hxy. apply list_elem_of_fmap. eauto.
  - apply IH; assumption.
Qed.

(** Under a key [OrderedDict] holds the value of the last pair with this
    key. *)
Lemma odict_get_last {V : Type} (k : string) (pairs : list (string * V)) :
  ∀ acc : list (string * V),
    odict_get k (foldl (λ d kv, odict_setitem kv.1 kv.2 d) acc pairs)
    = match last (filter (λ kv, kv.1 = k) pairs) with
      | Some kv => Some kv.2
      | None => odict_get k acc
      end.
Proof.
  induction pairs as [|[k0 v0] pairs IH]; intros acc; [reflexivity|].
  cbn [foldl fst snd]. rewrite IH, filter_cons, odict_get_setitem. cbn [fst].
  destruct (decide (k0 = k)) as [Heq|Hne]; [|reflexivity].
  rewrite last_cons.
  destruct (last (filter (λ kv : string * V, kv.1 = k) pairs)); reflexivity.
Qed.

(** Related lists have related last elements, among the elements that two
    related tests select. *)
Lemma last_filter_Forall2 {A B : Type} (R : A → B → Prop)
  (P : A → Prop) (Q : B → Prop)
  `{!∀ x, Decision (P x)} `{!∀ y, Decision (Q y)}
  (l : list A) (k : list B) :
  Forall2 R l k →
  (∀ x y, R x y → (P x ↔ Q y)) →
  match last (filter P l), last (filter Q k) with
  | Some x, Some y => R x y
  | None, None => True
  | _, _ => False
  end.
Proof.
  intros HR HPQ. induction HR as [|x y l k Hxy _ IH]; [exact I|].
  rewrite !filter_cons.
  destruct (decide (P x)) as [HP|HP]; destruct (decide (Q y)) as [HQ|HQ];
    try (exfalso; apply (HPQ x y Hxy) in HP || apply (HPQ x y Hxy) in HQ; done).
  - rewrite !last_cons.
    destruct (last (filter P l)), (last (filter Q k)); done.
  - exact IH.
Qed.

Lemma OrderedDict_maps_variables (scope : string)
  (var_list : list tfVariable) (pairs : list (string * Placeholder)) :
  Forall2 (placeholder_for scope) var_list pairs →
  maps_variables scope var_list (OrderedDict pairs).
Proof.
  intros Hpairs var Hvar. unfold OrderedDict. rewrite odict_get_last.
  pose proof (last_filter_Forall2 (placeholder_for scope)
                (λ v, stripped scope v = stripped scope var)
                (λ kv : string * Placeholder, kv.1 = stripped scope var)
                var_list pairs Hpairs) as Hlast.
  destruct (last (filter (λ v, stripped scope v = stripped scope var) var_list))
    as [var'|] eqn:Hvar'.
  - destruct (last (filter (λ kv : string * Placeholder,
                              kv.1 = stripped scope var) pairs))
      as [[k ph]|].
    + destruct Hlast as (Hk & Hdt & Hshape).
      { intros x y (Hy & _). rewrite Hy. reflexivity. }
      exists ph, var'. repeat split; try assumption.
      intros Hnd. apply last_Some_elem_of, list_elem_of_filter in Hvar'.
      destruct Hvar' as [Hname Hin].
      eapply NoDup_fmap_same; eassumption.
    + exfalso. apply Hlast. intros x y (Hy & _). rewrite Hy. reflexivity.
  - apply last_None in Hvar'.
    assert (Hin : var ∈ filter (λ v, stripped scope v = stripped scope var)
                         var_list)
      by (apply list_elem_of_filter; split; [reflexivity | exact Hvar]).
    rewrite Hvar' in Hin. by apply elem_of_nil in Hin.
Qed.

Lemma placeholder_dict_run (scope : string) (var_list : list tfVariable)
  (w : World MetaPolicy.instance) :
  ∃ d w', MetaPolicy.placeholder_dict scope var_list w = (Ret d, w') ∧
          placeholder_dict_for scope var_list d ∧
          same_but_nodes w w'.
Proof.
  unfold MetaPolicy.placeholder_dict.
  destruct (mapM_keeps (λ s, same_but_nodes w s) (placeholder_for scope)
              (λ var,
                 let name := remove_scope_from_name (var_name var) scope in
                 ph ← tf_placeholder float32 (Some (var_shape var));
                 mret (name, ph))) with (l := var_list) (s := w)
    as (pairs & w' & Hrun & Hpairs & Hw').
  - intros var s Hs.
    destruct (tf_placeholder_run (O := MetaPolicy.instance) float32
                (Some (var_shape var)) s)
      as (ph & s' & Hph & Hdt & Hsh & _ & _ & Hs').
    exists (remove_scope_from_name (var_name var) scope, ph), s'.
    split; [|split].
    + cbn zeta. rewrite (bind_returns _ _ _ _ _ Hph). reflexivity.
    + repeat split; assumption.
    + eapply same_but_nodes_trans; eassumption.
  - apply same_but_nodes_refl.
  - exists (OrderedDict pairs), w'. split; [|split].
    + rewrite (bind_returns _ _ _ _ _ Hrun). reflexivity.
    + split.
      * exists pairs. repeat split; [assumption|].
        apply OrderedDict_distinct_keys.
      * apply OrderedDict_maps_variables, Hpairs.
    + exact Hw'.
Qed.

Lemma py_range_length (n : Z) : length (py_range n) = Z.to_nat n.
Proof. unfold py_range. rewrite length_fmap, length_seq. reflexivity. Qed.

Lemma Forall2_right_only {A B : Type} (P : B → Prop) (l : list A) (k : list B) :
  Forall2 (λ _ y, P y) l k → Forall P k.
Proof. induction 1; constructor; assumption. Qed.

(** The two loops of [_create_placeholders_for_vars], once the assertion
    has passed: [range] gives every entry [Z.to_nat m] dicts. *)
Lemma create_placeholders_for_vars_run
  (w : World MetaPolicy.instance) (scopes : MetaPolicy.scopes_arg)
  (m : Z) (graph_keys : string) :
  MetaPolicy.isinstance_list scopes || MetaPolicy.isinstance_tuple scopes = true →
  ∃ placeholders w',
    MetaPolicy._create_placeholders_for_vars scopes m graph_keys w
      = (Ret placeholders, w') ∧
    same_but_nodes w w' ∧
    Forall2 (λ scope entry,
               length entry = Z.to_nat m ∧
               Forall (placeholder_dict_for scope
                         (collected (tf w) graph_keys scope)) entry)
            (MetaPolicy.scopes_iter scopes) placeholders.
Proof.
  intros Hscopes. unfold MetaPolicy._create_placeholders_for_vars.
  rewrite Hscopes. cbn [py_assert].
  destruct (mapM_keeps (λ s, same_but_nodes w s)
     (λ scope entry,
        length entry = Z.to_nat m ∧
        Forall (placeholder_dict_for scope
                  (collected (tf w) graph_keys scope)) entry)
     (λ scope,
        var_list ← tf_get_collection graph_keys scope;
        mapM (λ _ : Z, MetaPolicy.placeholder_dict scope var_list)
             (py_range m)))
    with (l := MetaPolicy.scopes_iter scopes) (s := w)
    as (placeholders & w' & Hrun & Hall & Hw').
  - intros scope s Hs.
    assert (Hcoll : tf_get_collection (O := MetaPolicy.instance)
                      graph_keys scope s
                    = (Ret (collected (tf w) graph_keys scope), s)).
    { unfold tf_get_collection, gets, collected.
      destruct Hs as (_ & _ & -> & _). reflexivity. }
    destruct (mapM_keeps (λ s', same_but_nodes w s')
       (λ (_ : Z) d,
          placeholder_dict_for scope (collected (tf w) graph_keys scope) d)
       (λ _ : Z, MetaPolicy.placeholder_dict scope
                   (collected (tf w) graph_keys scope)))
      with (l := py_range m) (s := s)
      as (entry & s' & Hentry & Hdicts & Hs'); [|exact Hs|].
    + intros _ s1 Hs1.
      destruct (placeholder_dict_run scope
                  (collected (tf w) graph_keys scope) s1)
        as (d & s2 & Hd & Hdict & Hs2).
      exists d, s2. split; [exact Hd|]. split; [exact Hdict|].
      eapply same_but_nodes_trans; eassumption.
    + exists entry, s'. split; [|split; [split|exact Hs']].
      * rewrite (bind_returns _ _ _ _ _ Hcoll). exact Hentry.
      * rewrite <- (Forall2_length _ _ _ Hdicts). apply py_range_length.
      * eapply Forall2_right_only, Hdicts.
  - apply same_but_nodes_refl.
  - exists placeholders, w'. split; [|split; [exact Hw'|exact Hall]].
    change ((mret () ;; (mapM (λ scope,
          var_list ← tf_get_collection graph_keys scope;
          mapM (λ _ : Z, MetaPolicy.placeholder_dict scope var_list)
               (py_range m)) (MetaPolicy.scopes_iter scopes)
        ≫= λ placeholders, mret placeholders)) w = (Ret placeholders, w')).
    rewrite (bind_returns _ _ w w () eq_refl).
    rewrite (bind_returns _ _ _ _ _ Hrun). reflexivity.
Qed.

Lemma create_placeholders_for_vars_assert
  (w : World MetaPolicy.instance) (scopes : MetaPolicy.scopes_arg)
  (m : Z) (graph_keys : string) :
  MetaPolicy.isinstance_list scopes || MetaPolicy.isinstance_tuple scopes = false →
  MetaPolicy._create_placeholders_for_vars scopes m graph_keys w
    = (Raise AssertionError, w).
Proof.
  intros Hscopes. unfold MetaPolicy._create_placeholders_for_vars.
  rewrite Hscopes. reflexivity.
Qed.

(** C6, as the code has it: for a list or tuple of scopes
    [_create_placeholders_for_vars] returns one entry per scope, in order;
    an entry is a list of [max(m, 0)] dicts, [m] being the meta batch size
    ([range(m)] is empty when [m] is negative); a dict is the
    [OrderedDict] of the pairs made, for every variable collected for the
    scope, of its name without the scope and a [float32] placeholder of
    its shape.  So under the name of every collected variable it holds a
    [float32] placeholder with the shape of the last collected variable of
    that name: the variable's own shape when the names are pairwise
    distinct, and then the dict holds exactly the pairs.  Only placeholder
    nodes are added to the graph.  When [scopes] is neither a list nor a
    tuple the call raises [AssertionError]. *)
Theorem create_placeholders_for_vars_result
  (w : World MetaPolicy.instance) (scopes : MetaPolicy.scopes_arg)
  (m : Z) (graph_keys : string) :
  (MetaPolicy.isinstance_list scopes || MetaPolicy.isinstance_tuple scopes = true →
   ∃ placeholders w',
     MetaPolicy._create_placeholders_for_vars scopes m graph_keys w
       = (Ret placeholders, w') ∧
     same_but_nodes w w' ∧
     length placeholders = length (MetaPolicy.scopes_iter scopes) ∧
     Forall2 (λ scope entry,
                Z.of_nat (length entry) = Z.max m 0 ∧
                Forall (placeholder_dict_for scope
                          (collected (tf w) graph_keys scope)) entry)
             (MetaPolicy.scopes_iter scopes) placeholders) ∧
  (MetaPolicy.isinstance_list scopes || MetaPolicy.isinstance_tuple scopes = false →
   MetaPolicy._create_placeholders_for_vars scopes m graph_keys w
     = (Raise AssertionError, w)).
Proof.
  split.
  - intros Hscopes.
    destruct (create_placeholders_for_vars_run w scopes m graph_keys Hscopes)
      as (placeholders & w' & Hrun & Hw' & Hall).
    exists placeholders, w'.
    split; [exact Hrun|]. split; [exact Hw'|]. split.
    + symmetry. eapply Forall2_length, Hall.
    + eapply Forall2_impl; [exact Hall|].
      intros scope entry [Hlen Hdicts]. split; [lia | exact Hdicts].
  - apply create_placeholders_for_vars_assert.
Qed.

(** ** Setting parameters *)

Lemma keys_match_cons (k1 k2 : string) (ks1 ks2 : list string) :
  Policy.keys_match (k1 :: ks1) (k2 :: ks2)
  = bool_decide (k1 = k2) && Policy.keys_match ks1 ks2.
Proof. reflexivity. Qed.

(** The assertion of [set_params] fails exactly on keys that differ at a
    common position. *)
Lemma keys_match_differ (ks1 ks2 : list string) :
  Policy.keys_match ks1 ks2 = false ↔ keys_differ ks1 ks2.
Proof.
  revert ks2. induction ks1 as [|k1 ks1 IH]; intros ks2.
  - split; [discriminate|]. intros (i & a & c & Hi & _). done.
  - destruct ks2 as [|k2 ks2].
    + split; [discriminate|]. intros (i & a & c & _ & Hi & _). done.
    + rewrite keys_match_cons, andb_false_iff, IH, bool_decide_eq_false.
      split.
      * intros [Hne | (i & a & c & Ha & Hc & Hne)].
        -- exists 0, k1, k2. done.
        -- exists (S i), a, c. done.
      * intros ([|i] & a & c & Ha & Hc & Hne); cbn in Ha, Hc.
        -- left. congruence.
        -- right. exists i, a, c. done.
Qed.

Lemma keys_match_true (ks1 ks2 : list string) :
  Policy.keys_match ks1 ks2 = true ↔ ¬ keys_differ ks1 ks2.
Proof.
  rewrite <- keys_match_differ. destruct (Policy.keys_match ks1 ks2); split; done.
Qed.

Lemma keys_match_refl (ks : list string) : Policy.keys_match ks ks = true.
Proof.
  apply keys_match_true. intros (i & k1 & k2 & H1 & H2 & Hne). congruence.
Qed.

(** *** Arrays a variable takes *)

Lemma tf_value_Some (s : gmap nat ndarray) (v : tfVariable) (x : ndarray) :
  tf_value s v = Some x ↔ s !! var_id v = Some x ∧ is_value_of v x = true.
Proof.
  unfold tf_value. destruct (s !! var_id v) as [y|].
  - destruct (is_value_of v y) eqn:Hy; split.
    + intros [= ->]. done.
    + intros [[= ->] _]. reflexivity.
    + done.
    + intros [[= ->] Hx]. congruence.
  - split; [done|]. intros [[=] _].
Qed.

(** What is written into a variable is an array of its dtype and shape. *)
Lemma tf_convert_is_value (v : tfVariable) (x y : ndarray) :
  tf_convert v x = Some y → is_value_of v y = true.
Proof.
  unfold tf_convert, is_value_of.
  destruct (ndarray_astype (var_dtype v) x) as [z|] eqn:Hz; [|done].
  case_bool_decide as Hsh; [|done]. intros [= <-].
  apply andb_true_iff. split; apply bool_decide_eq_true.
  - eapply astype_dtype, Hz.
  - exact Hsh.
Qed.

(** An array of the dtype and shape of a variable is written as it is. *)
Lemma tf_convert_value (v : tfVariable) (x : ndarray) :
  is_value_of v x = true → tf_convert v x = Some x.
Proof.
  unfold is_value_of, tf_convert. intros [Hdt Hsh]%andb_true_iff.
  apply bool_decide_eq_true in Hdt. apply bool_decide_eq_true in Hsh.
  rewrite <- Hdt, astype_same, bool_decide_true by exact Hsh. reflexivity.
Qed.

(** *** The stores a run leaves *)

Lemma assign_all_cons (v : tfVariable) (x : ndarray)
  (l : list (tfVariable * ndarray)) (s : gmap nat ndarray) :
  assign_all ((v, x) :: l) s = assign_all l (<[var_id v := x]> s).
Proof. reflexivity. Qed.

(** A variable that is not assigned keeps its value. *)
Lemma assign_all_other (l : list (tfVariable * ndarray)) (s : gmap nat ndarray)
  (i : nat) :
  i ∉ var_id <$> l.*1 → assign_all l s !! i = s !! i.
Proof.
  revert s. induction l as [|[v x] l IH]; intros s Hi; [reflexivity|].
  cbn in Hi. apply not_elem_of_cons in Hi as [Hne Hi].
  rewrite assign_all_cons, IH by exact Hi.
  apply lookup_insert_ne. congruence.
Qed.

(** A variable that is assigned once holds the value assigned to it. *)
Lemma assign_all_lookup (vs : list tfVariable) (xs : list ndarray)
  (s : gmap nat ndarray) (j : nat) (v : tfVariable) (x : ndarray) :
  NoDup (var_id <$> vs) →
  vs !! j = Some v → xs !! j = Some x →
  assign_all (zip vs xs) s !! var_id v = Some x.
Proof.
  revert xs s j. induction vs as [|v0 vs IH]; intros xs s j Hnd Hv Hx; [done|].
  destruct xs as [|x0 xs]; [done|].
  cbn in Hnd. apply NoDup_cons in Hnd as [Hv0 Hnd].
  cbn [zip zip_with]. rewrite assign_all_cons.
  destruct j as [|j]; cbn in Hv, Hx.
  - injection Hv as ->. injection Hx as ->.
    rewrite assign_all_other; [apply lookup_insert_eq|].
    intros Hin. apply Hv0.
    apply list_elem_of_fmap in Hin as (v' & -> & Hin).
    apply list_elem_of_fmap in Hin as ([v'' x''] & -> & Hin).
    apply list_elem_of_fmap. exists v''. split; [reflexivity|].
    apply elem_of_zip_l in Hin. exact Hin.
  - eapply IH; eassumption.
Qed.

Lemma zip_fst_take {A B : Type} (l : list A) (k : list B) :
  (zip l k).*1 = take (length k) l.
Proof.
  revert k. induction l as [|a l IH]; intros [|b k]; cbn; try reflexivity.
  f_equal. apply IH.
Qed.

Lemma zip_take_longer {A B : Type} (l : list A) (k : list B) (n : nat) :
  length k ≤ n → zip (take n l) k = zip l k.
Proof.
  revert k n. induction l as [|a l IH]; intros [|b k] [|n] Hn; cbn in *;
    try reflexivity; try lia.
  f_equal. apply IH. lia.
Qed.

Lemma not_elem_of_fmap_take {A B : Type} (f : A → B) (l : list A) (n : nat)
  (y : B) :
  y ∉ f <$> l → y ∉ f <$> take n l.
Proof.
  intros Hy Hin. apply Hy.
  apply list_elem_of_fmap in Hin as (x & -> & Hx).
  apply list_elem_of_fmap. exists x. split; [reflexivity|].
  apply list_elem_of_lookup in Hx as [j Hj].
  apply lookup_take_Some in Hj as [Hj _].
  eapply list_elem_of_lookup_2, Hj.
Qed.

(** A variable that is not written keeps its value, also when a write is
    refused. *)
Lemma write_all_other (vs : list tfVariable) (ys : list ndarray) :
  ∀ (s : gmap nat ndarray) (i : nat),
    i ∉ var_id <$> vs → (write_all (zip vs ys) s).2 !! i = s !! i.
Proof.
  revert ys. induction vs as [|v vs IH]; intros [|y ys] s i Hi;
    try reflexivity.
  cbn in Hi. apply not_elem_of_cons in Hi as [Hne Hi].
  cbn [zip zip_with write_all fst snd]. case_bool_decide; [|reflexivity].
  rewrite IH by exact Hi. apply lookup_insert_ne. congruence.
Qed.

(** *** The loop of [set_params] *)

Lemma feed_setitem_new (ph : Placeholder) (x : ndarray)
  (feed : list (Placeholder * ndarray)) :
  Forall (λ e : Placeholder * ndarray, ph_id e.1 < ph_id ph) feed →
  feed_setitem ph x feed = feed ++ [(ph, x)].
Proof.
  induction 1 as [|[ph' x'] feed Hlt _ IH]; [reflexivity|].
  cbn in *. destruct (decide (ph_id ph' = ph_id ph)); [lia|].
  rewrite IH. reflexivity.
Qed.

(** The loop makes one fresh placeholder per zipped pair, and nothing else:
    it ends with the ops and the feeds of [new_ops] and [new_feeds]. *)
Lemma set_params_loop_run (l : list (tfVariable * (string * ndarray))) :
  ∀ (ops : list AssignOp) (feed : list (Placeholder * ndarray))
    (w : World Policy.instance),
    Forall (λ e : Placeholder * ndarray, ph_id e.1 < next_node w) feed →
    ∃ w', Policy.set_params_loop l ops feed w
          = (Ret (ops ++ new_ops (next_node w) l,
                  feed ++ new_feeds (next_node w) l), w') ∧
          same_but_nodes w w' ∧
          next_node w' = next_node w + length l.
Proof.
  induction l as [|[var [param_name var_value]] l IH]; intros ops feed w Hfeed.
  - exists w. rewrite !app_nil_r. split; [reflexivity|].
    split; [apply same_but_nodes_refl | cbn; lia].
  - destruct (IH (ops ++ [tf_assign var (assign_placeholder_at (next_node w) var)])
                (feed ++ [(assign_placeholder_at (next_node w) var, var_value)])
                (on_tf (set_next_id (S (next_node w))) w))
      as (w' & Hrun & Hsame & Hnext).
    { apply Forall_app. split.
      - eapply Forall_impl; [exact Hfeed|]. cbn. intros e He.
        unfold next_node in *. cbn. lia.
      - constructor; [|constructor]. unfold next_node. cbn. lia. }
    exists w'. split; [|split].
    + cbn [Policy.set_params_loop]. rewrite bind_run. cbn [tf_placeholder].
      change (tf_next_id (tf w)) with (next_node w).
      change {| ph_id := next_node w; ph_dtype := var_dtype var; ph_shape := None |}
        with (assign_placeholder_at (next_node w) var).
      rewrite feed_setitem_new by exact Hfeed.
      rewrite Hrun. cbn [new_ops new_feeds fst snd].
      change (next_node (on_tf (set_next_id (S (next_node w))) w))
        with (S (next_node w)).
      rewrite <- !app_assoc. reflexivity.
    + eapply same_but_nodes_trans; [|exact Hsame].
      unfold same_but_nodes, next_node. cbn. repeat split. lia.
    + rewrite Hnext. unfold next_node. cbn. lia.
Qed.

(** *** The run of [set_params] *)

Lemma fed_value_new (pre rest : list (nat * ndarray)) (k : nat) (y : ndarray) :
  Forall (λ e : nat * ndarray, e.1 < k) pre →
  fed_value k (pre ++ (k, y) :: rest) = Some y.
Proof.
  induction 1 as [|[k' y'] pre Hlt _ IH]; cbn.
  - rewrite decide_True by reflexivity. reflexivity.
  - cbn in Hlt. rewrite decide_False by lia. exact IH.
Qed.

Lemma mapM_option_cons {A B : Type} (f : A → option B) (x : A) (l : list A) :
  mapM f (x :: l) = f x ≫= λ y, mapM f l ≫= λ k, mret (y :: k).
Proof. reflexivity. Qed.

(** The feeds of the loop are converted to the dtypes of the variables. *)
Lemma convert_new_feeds (l : list (tfVariable * (string * ndarray))) :
  ∀ n : nat,
    convert_feed (new_feeds n l) = zip (seq n (length l)) <$> casts l.
Proof.
  unfold convert_feed, casts.
  induction l as [|e l IH]; intros n; [reflexivity|].
  cbn [new_feeds length seq]. rewrite !mapM_option_cons, IH.
  unfold feed_value. cbn [fst snd assign_placeholder_at ph_dtype ph_shape ph_id].
  destruct (ndarray_astype (var_dtype e.1) e.2.2) as [y|]; [|reflexivity].
  cbn.
  destruct (mapM (λ e0 : tfVariable * (string * ndarray),
                    ndarray_astype (var_dtype e0.1) e0.2.2) l); reflexivity.
Qed.

(** The ops of the loop, run on the converted feeds, write the converted
    arrays into the variables in order, each checked for its shape. *)
Lemma run_new_ops (l : list (tfVariable * (string * ndarray))) :
  ∀ (n : nat) (ys : list ndarray) (pre : list (nat * ndarray))
    (s : gmap nat ndarray),
    Forall (λ e : nat * ndarray, e.1 < n) pre →
    length ys = length l →
    run_assign_ops (new_ops n l) (pre ++ zip (seq n (length l)) ys) s
    = write_all (zip l.*1 ys) s.
Proof.
  induction l as [|e l IH]; intros n [|y ys] pre s Hpre Hlen;
    try discriminate; [reflexivity|].
  cbn [new_ops run_assign_ops length seq zip zip_with fmap list_fmap
       write_all assign_value assign_ref assign_placeholder_at ph_id fst snd].
  rewrite fed_value_new by exact Hpre.
  case_bool_decide; [|reflexivity].
  rewrite <- (IH (S n) ys (pre ++ [(n, y)])).
  - rewrite <- app_assoc. reflexivity.
  - apply Forall_app. split.
    + eapply Forall_impl; [exact Hpre|]. cbn. intros; lia.
    + constructor; [cbn; lia | constructor].
  - cbn in Hlen. lia.
Qed.

Lemma casts_length (l : list (tfVariable * (string * ndarray)))
  (ys : list ndarray) :
  casts l = Some ys → length ys = length l.
Proof.
  unfold casts. intros Hys. apply mapM_Some_1, Forall2_length in Hys. done.
Qed.

(** The dict of the converted values tells how the run ends. *)
Lemma convert_all_run (l : list (tfVariable * (string * ndarray))) :
  ∀ s : gmap nat ndarray,
    match mapM (λ e : tfVariable * (string * ndarray),
                  (λ y, (e.2.1, y)) <$> tf_convert e.1 e.2.2) l with
    | Some qq =>
        casts l = Some qq.*2 ∧
        write_all (zip l.*1 qq.*2) s = (Ret (), assign_all (zip l.*1 qq.*2) s)
    | None =>
        casts l = None ∨
        ∃ ys, casts l = Some ys ∧
              (write_all (zip l.*1 ys) s).1 = Raise InvalidArgumentError
    end.
Proof.
  unfold casts. induction l as [|[v [k x]] l IH]; intros s.
  { cbn. split; reflexivity. }
  rewrite !mapM_option_cons. cbn [fst snd].
  destruct (ndarray_astype (var_dtype v) x) as [y|] eqn:Hy.
  2: { assert (tf_convert v x = None) as ->
         by (unfold tf_convert; rewrite Hy; reflexivity).
       left. reflexivity. }
  destruct (decide (ndarray_shape y = var_shape v)) as [Hsh|Hsh].
  - assert (tf_convert v x = Some y) as ->.
    { unfold tf_convert. rewrite Hy, bool_decide_true by exact Hsh. reflexivity. }
    specialize (IH (<[var_id v := y]> s)).
    cbn [fmap option_fmap option_map mbind option_bind].
    match type of IH with
    | match ?m with _ => _ end => destruct m as [qq|]
    end.
    + destruct IH as [Hcasts Hwrite]. rewrite Hcasts. cbn. split; [reflexivity|].
      rewrite bool_decide_true by exact Hsh. exact Hwrite.
    + cbn. destruct IH as [Hcasts | (ys & Hcasts & Hwrite)].
      * left. rewrite Hcasts. reflexivity.
      * right. exists (y :: ys). rewrite Hcasts. split; [reflexivity|].
        cbn. rewrite bool_decide_true by exact Hsh. exact Hwrite.
  - assert (tf_convert v x = None) as ->.
    { unfold tf_convert. rewrite Hy, bool_decide_false by exact Hsh. reflexivity. }
    cbn.
    destruct (mapM (λ e : tfVariable * (string * ndarray),
                      ndarray_astype (var_dtype e.1) e.2.2) l) as [ys|];
      [|by left].
    right. exists (y :: ys). split; [reflexivity|].
    cbn. rewrite bool_decide_false by exact Hsh. reflexivity.
Qed.

Lemma convert_params_length (ps : odict tfVariable) (pp qq : odict ndarray) :
  convert_params ps pp = Some qq → length qq = length ps `min` length pp.
Proof.
  unfold convert_params. intros Hqq.
  apply mapM_Some_1, Forall2_length in Hqq.
  rewrite length_zip in Hqq. unfold odict_values, odict_items in Hqq.
  rewrite length_fmap in Hqq. lia.
Qed.

(** [set_params] on an object that has its parameters, with keys that pass
    the assertion: what it returns or raises, and the state it leaves. *)
Lemma set_params_passes (w : World Policy.instance) (ps : odict tfVariable)
  (pp : odict ndarray) :
  Policy.policy_params (self w) = Some ps →
  Policy.keys_match (odict_keys ps) (odict_keys pp) = true →
  ∃ r w',
    Policy.set_params pp w = (r, w') ∧
    self w' = self w ∧
    tf_global_variables (tf w') = tf_global_variables (tf w) ∧
    tf_collections (tf w') = tf_collections (tf w) ∧
    next_node w' = next_node w + length ps `min` length pp ∧
    (∀ i, i ∉ var_id <$> take (length pp) (odict_values ps) →
          tf_store (tf w') !! i = tf_store (tf w) !! i) ∧
    match convert_params ps pp with
    | Some qq =>
        r = Ret () ∧
        tf_store (tf w')
        = assign_all (zip (odict_values ps) (odict_values qq)) (tf_store (tf w))
    | None => r = Raise ValueError ∨ r = Raise InvalidArgumentError
    end.
Proof.
  intros Hps Hkeys.
  assert (Hget : Policy.get_params w = (Ret ps, w)).
  { unfold Policy.get_params, Policy.self_policy_params. rewrite Hps. reflexivity. }
  set (l := zip (odict_values ps) (odict_items pp)).
  assert (Hl1 : l.*1 = take (length pp) (odict_values ps)).
  { unfold l. rewrite zip_fst_take. reflexivity. }
  assert (Hlen : length l = length ps `min` length pp).
  { unfold l, odict_values, odict_items. rewrite length_zip, length_fmap.
    reflexivity. }
  destruct (set_params_loop_run l [] [] w)
    as (w1 & Hloop & (Hself & Hglob & Hcoll & Hstore & _) & Hnext);
    [constructor|].
  cbn [app] in Hloop.
  assert (Hrun : Policy.set_params pp w
                 = session_run_assign (new_ops (next_node w) l)
                     (new_feeds (next_node w) l) w1).
  { unfold Policy.set_params.
    rewrite (bind_returns _ _ _ _ _ Hget), Hkeys.
    rewrite (bind_returns _ _ w w () eq_refl).
    rewrite (bind_returns _ _ _ _ _ Hget).
    fold l. rewrite (bind_returns _ _ _ _ _ Hloop). reflexivity. }
  rewrite Hrun. unfold session_run_assign. rewrite convert_new_feeds.
  pose proof (convert_all_run l (tf_store (tf w1))) as Hspec.
  unfold convert_params. fold l.
  destruct (mapM (λ e : tfVariable * (string * ndarray),
                    (λ y, (e.2.1, y)) <$> tf_convert e.1 e.2.2) l)
    as [qq|] eqn:Hqq.
  - destruct Hspec as [Hcasts Hwrite]. rewrite Hcasts. cbn [fmap option_fmap option_map].
    pose proof (casts_length _ _ Hcasts) as Hqlen.
    rewrite (run_new_ops l (next_node w) qq.*2 [] _ (Forall_nil_2 _) Hqlen).
    rewrite Hwrite. cbn [fst snd].
    assert (Hzip : zip l.*1 qq.*2 = zip (odict_values ps) (odict_values qq)).
    { rewrite Hl1. apply zip_take_longer.
      change (length qq.*2 ≤ length pp). rewrite Hqlen, Hlen. lia. }
    eexists _, _. split; [reflexivity|]. cbn.
    split; [exact Hself|]. split; [exact Hglob|]. split; [exact Hcoll|].
    split; [unfold next_node in *; cbn; lia|].
    rewrite Hstore. split; [|split; [reflexivity | rewrite Hzip; reflexivity]].
    intros i Hi. apply assign_all_other.
    rewrite zip_fst_take. apply not_elem_of_fmap_take.
    rewrite Hl1. exact Hi.
  - destruct Hspec as [Hcasts | (ys & Hcasts & Hwrite)]; rewrite Hcasts;
      cbn [fmap option_fmap option_map].
    + exists (Raise ValueError), w1. split; [reflexivity|].
      split; [exact Hself|]. split; [exact Hglob|]. split; [exact Hcoll|].
      split; [lia|]. split; [|by left].
      intros i _. rewrite Hstore. reflexivity.
    + rewrite (run_new_ops l (next_node w) ys [] _ (Forall_nil_2 _)
                 (casts_length _ _ Hcasts)).
      rewrite Hwrite. eexists _, _. split; [reflexivity|]. cbn.
      split; [exact Hself|]. split; [exact Hglob|]. split; [exact Hcoll|].
      split; [unfold next_node in *; cbn; lia|]. split; [|by right].
      intros i Hi. rewrite write_all_other, Hstore; [reflexivity|].
      rewrite Hl1. exact Hi.
Qed.

(** When the assertion of [set_params] fails. *)
Lemma set_params_raises_AssertionError (w : World Policy.instance)
  (pp : odict ndarray) :
  raises AssertionError (Policy.set_params pp) w ↔
  ∃ ps, Policy.policy_params (self w) = Some ps ∧
        keys_differ (odict_keys ps) (odict_keys pp).
Proof.
  unfold raises.
  destruct (Policy.policy_params (self w)) as [ps|] eqn:Hps.
  - destruct (Policy.keys_match (odict_keys ps) (odict_keys pp)) eqn:Hkeys.
    + destruct (set_params_passes w ps pp Hps Hkeys)
        as (r & w' & -> & _ & _ & _ & _ & _ & Hr).
      cbn [fst]. split.
      * intros ->. destruct (convert_params ps pp);
          [destruct Hr as [[=] _] | destruct Hr as [[=] | [=]]].
      * intros (ps' & [= <-] & Hdiff).
        apply keys_match_true in Hkeys. done.
    + split.
      * intros _. exists ps. split; [reflexivity|].
        apply keys_match_differ, Hkeys.
      * intros _. unfold Policy.set_params, Policy.get_params,
          Policy.self_policy_params.
        rewrite bind_run, Hps, bind_run, Hkeys. reflexivity.
  - split.
    + unfold Policy.set_params, Policy.get_params, Policy.self_policy_params.
      rewrite bind_run, Hps. discriminate.
    + intros (ps & [=] & _).
Qed.

(** On an object without parameters [set_params] raises [AttributeError]
    and changes nothing; so it does when its assertion fails. *)
Lemma set_params_no_parameters (w : World Policy.instance) (pp : odict ndarray) :
  Policy.policy_params (self w) = None →
  Policy.set_params pp w = (Raise AttributeError, w).
Proof.
  intros Hps.
  unfold Policy.set_params, Policy.get_params, Policy.self_policy_params.
  rewrite bind_run, Hps. reflexivity.
Qed.

Lemma set_params_assert_fails (w : World Policy.instance) (ps : odict tfVariable)
  (pp : odict ndarray) :
  Policy.policy_params (self w) = Some ps →
  Policy.keys_match (odict_keys ps) (odict_keys pp) = false →
  Policy.set_params pp w = (Raise AssertionError, w).
Proof.
  intros Hps Hkeys.
  unfold Policy.set_params, Policy.get_params, Policy.self_policy_params.
  rewrite bind_run, Hps, bind_run, Hkeys. reflexivity.
Qed.

(** [set_params] returns, or raises [AttributeError], [AssertionError], or
    what the run of the assignments raises. *)
Lemma set_params_outcome (w : World Policy.instance) (pp : odict ndarray) :
  (Policy.set_params pp w).1 = Ret () ∨
  (Policy.set_params pp w).1 = Raise AttributeError ∨
  (Policy.set_params pp w).1 = Raise AssertionError ∨
  (Policy.set_params pp w).1 = Raise ValueError ∨
  (Policy.set_params pp w).1 = Raise InvalidArgumentError.
Proof.
  destruct (Policy.policy_params (self w)) as [ps|] eqn:Hps.
  - destruct (Policy.keys_match (odict_keys ps) (odict_keys pp)) eqn:Hkeys.
    + destruct (set_params_passes w ps pp Hps Hkeys)
        as (r & w' & -> & _ & _ & _ & _ & _ & Hr).
      cbn [fst]. destruct (convert_params ps pp).
      * left. apply Hr.
      * right. right. right. exact Hr.
    + rewrite (set_params_assert_fails w ps pp Hps Hkeys). auto.
  - rewrite (set_params_no_parameters w pp Hps). auto.
Qed.

(** C7: [set_params] raises [AssertionError] exactly when the object has
    its parameters and their keys differ from the keys of the argument at
    a position both sequences have.  Otherwise, on an object that has its
    parameters, the assertion passes and the assignments are run: a dict
    with fewer keys than the parameters (the empty dict too) passes, and
    whatever the run does, the object is as before and a variable beyond
    the length of the argument keeps its value.  When every zipped value
    can be converted to the dtype of its variable and then has its shape,
    the call returns and has assigned the converted values to the zipped
    variables, in order; otherwise the run raises. *)
Theorem set_params_assertion (w : World Policy.instance) (pp : odict ndarray) :
  (raises AssertionError (Policy.set_params pp) w ↔
   ∃ ps, Policy.policy_params (self w) = Some ps ∧
         keys_differ (odict_keys ps) (odict_keys pp)) ∧
  (∀ ps, Policy.policy_params (self w) = Some ps →
         ¬ keys_differ (odict_keys ps) (odict_keys pp) →
         self (Policy.set_params pp w).2 = self w ∧
         (∀ i, i ∉ var_id <$> take (length pp) (odict_values ps) →
               tf_store (tf (Policy.set_params pp w).2) !! i
               = tf_store (tf w) !! i) ∧
         match convert_params ps pp with
         | Some qq =>
             (Policy.set_params pp w).1 = Ret () ∧
             tf_store (tf (Policy.set_params pp w).2)
             = assign_all (zip (odict_values ps) (odict_values qq))
                          (tf_store (tf w))
         | None =>
             (Policy.set_params pp w).1 = Raise ValueError ∨
             (Policy.set_params pp w).1 = Raise InvalidArgumentError
         end).
Proof.
  split; [apply set_params_raises_AssertionError|].
  intros ps Hps Hsame. apply keys_match_true in Hsame.
  destruct (set_params_passes w ps pp Hps Hsame)
    as (r & w' & -> & Hself & _ & _ & _ & Hframe & Hr).
  cbn [fst snd]. split; [exact Hself|]. split; [exact Hframe | exact Hr].
Qed.

(** ** Pickling *)

Lemma fetch_dict_Some (s : gmap nat ndarray) (d : odict tfVariable)
  (r : odict ndarray) :
  fetch_dict s d = Some r ↔
  Forall2 (λ kv kx, kx.1 = kv.1 ∧ tf_value s kv.2 = Some kx.2) d r.
Proof.
  unfold fetch_dict. rewrite mapM_Some.
  split; intros Hall; (eapply Forall2_impl; [exact Hall|]);
    intros [k v] [k' x]; cbn; destruct (tf_value s v) as [y|]; cbn.
  - intros [= -> ->]. done.
  - done.
  - intros [-> [= ->]]. done.
  - intros [_ [=]].
Qed.

Lemma fetch_dict_keys (s : gmap nat ndarray) (d : odict tfVariable)
  (r : odict ndarray) :
  fetch_dict s d = Some r → odict_keys r = odict_keys d.
Proof.
  rewrite fetch_dict_Some. unfold odict_keys.
  induction 1 as [|[k v] [k' x] d r [Hk _] _ IH]; [reflexivity|].
  cbn in *. congruence.
Qed.

(** What is read from a variable is an array of its dtype and shape. *)
Lemma fetch_dict_values (s : gmap nat ndarray) (d : odict tfVariable)
  (r : odict ndarray) :
  fetch_dict s d = Some r →
  Forall2 (λ kv kx, kx.1 = kv.1 ∧ is_value_of kv.2 kx.2 = true) d r.
Proof.
  rewrite fetch_dict_Some. intros Hall.
  eapply Forall2_impl; [exact Hall|].
  intros kv kx [Hk Hx]. split; [exact Hk|].
  apply tf_value_Some in Hx. apply Hx.
Qed.

(** Initialised variables can be read. *)
Lemma fetch_dict_initialised (s : gmap nat ndarray) (d : odict tfVariable) :
  Forall (λ v, is_Some (tf_value s v)) (odict_values d) →
  ∃ r, fetch_dict s d = Some r.
Proof.
  unfold odict_values.
  induction d as [|[k v] d IH]; intros Hd.
  - exists []. reflexivity.
  - cbn in Hd. apply Forall_cons in Hd as [[x Hx] Hd].
    destruct (IH Hd) as [r Hr]. exists ((k, x) :: r).
    apply fetch_dict_Some. constructor; [done|].
    apply fetch_dict_Some, Hr.
Qed.

Lemma get_param_values_run (w : World Policy.instance)
  (ps : odict tfVariable) (vals : odict ndarray) :
  Policy.policy_params (self w) = Some ps →
  fetch_dict (tf_store (tf w)) ps = Some vals →
  Policy.get_param_values w = (Ret vals, w).
Proof.
  intros Hps Hvals.
  unfold Policy.get_param_values, Policy.self_policy_params, session_run_fetch.
  rewrite bind_run, Hps, bind_run, Hvals. reflexivity.
Qed.

(** Reading back what has been assigned, key by key. *)
Lemma fetch_dict_assign_all (s : gmap nat ndarray) (ps : odict tfVariable)
  (vals : odict ndarray) :
  NoDup (var_id <$> odict_values ps) →
  Forall2 (λ kv kx, kx.1 = kv.1 ∧ is_value_of kv.2 kx.2 = true) ps vals →
  fetch_dict (assign_all (zip (odict_values ps) (odict_values vals)) s) ps
  = Some vals.
Proof.
  intros Hnd Hall. apply fetch_dict_Some.
  apply Forall2_same_length_lookup. split; [eapply Forall2_length, Hall|].
  intros i [k v] [k' x] Hi Hi'.
  destruct (Forall2_lookup_lr _ _ _ _ _ _ Hall Hi Hi') as [Hk Hx].
  cbn in *. split; [exact Hk|].
  apply tf_value_Some. split; [|exact Hx].
  apply (assign_all_lookup _ _ _ i); [exact Hnd| |];
    unfold odict_values; rewrite list_lookup_fmap.
  - rewrite Hi. reflexivity.
  - rewrite Hi'. reflexivity.
Qed.

(** Arrays of the dtypes and shapes of the variables are written as they
    are. *)
Lemma convert_params_values (ps : odict tfVariable) (vals : odict ndarray) :
  Forall2 (λ kv kx, kx.1 = kv.1 ∧ is_value_of kv.2 kx.2 = true) ps vals →
  convert_params ps vals = Some vals.
Proof.
  unfold convert_params, odict_values, odict_items.
  induction 1 as [|[k v] [k' x] ps vals [_ Hx] _ IH]; [reflexivity|].
  cbn [fmap list_fmap zip zip_with snd fst] in *.
  rewrite mapM_option_cons. cbn [fst snd].
  rewrite (tf_convert_value _ _ Hx), IH. reflexivity.
Qed.

(** The converted dict of a dict with the keys of the parameters: the same
    keys, and arrays of the dtypes and shapes of the variables. *)
Lemma convert_params_full (ps : odict tfVariable) (pp qq : odict ndarray) :
  odict_keys pp = odict_keys ps →
  convert_params ps pp = Some qq →
  Forall2 (λ kv kx, kx.1 = kv.1 ∧ is_value_of kv.2 kx.2 = true) ps qq.
Proof.
  unfold convert_params, odict_keys, odict_values, odict_items.
  revert pp qq. induction ps as [|[k v] ps IH]; intros [|[k' x] pp] qq Hkeys;
    try discriminate.
  - intros [= <-]. constructor.
  - cbn [fmap list_fmap zip zip_with snd fst] in *.
    injection Hkeys as Hk Hkeys.
    rewrite mapM_option_cons. cbn [fst snd].
    destruct (tf_convert v x) as [y|] eqn:Hy; [|discriminate].
    cbn [fmap option_fmap option_map mbind option_bind].
    destruct (mapM _ (zip ps.*2 pp)) as [qq'|] eqn:Hqq'; [|discriminate].
    cbn. intros [= <-]. constructor.
    + split; [exact Hk|]. eapply tf_convert_is_value, Hy.
    + eapply IH; [exact Hkeys | exact Hqq'].
Qed.

Lemma is_value_of_same_type (v v' : tfVariable) (x : ndarray) :
  var_dtype v' = var_dtype v → var_shape v' = var_shape v →
  is_value_of v' x = is_value_of v x.
Proof. unfold is_value_of. intros -> ->. reflexivity. Qed.

(** [set_params] on a dict it accepts, with the keys of the parameters:
    it returns, and the store holds the converted values. *)
Lemma set_params_accepts (w : World Policy.instance) (ps : odict tfVariable)
  (pp qq : odict ndarray) :
  Policy.policy_params (self w) = Some ps →
  ¬ keys_differ (odict_keys ps) (odict_keys pp) →
  convert_params ps pp = Some qq →
  ∃ w', Policy.set_params pp w = (Ret (), w') ∧
        self w' = self w ∧
        tf_global_variables (tf w') = tf_global_variables (tf w) ∧
        tf_collections (tf w') = tf_collections (tf w) ∧
        next_node w' = next_node w + length ps `min` length pp ∧
        tf_store (tf w')
        = assign_all (zip (odict_values ps) (odict_values qq)) (tf_store (tf w)).
Proof.
  intros Hps Hsame Hqq. apply keys_match_true in Hsame.
  destruct (set_params_passes w ps pp Hps Hsame)
    as (r & w' & Hrun & Hself & Hglob & Hcoll & Hnext & _ & Hr).
  rewrite Hqq in Hr. destruct Hr as [-> Hstore].
  exists w'. done.
Qed.

(** C8, as the code has it.  On an object that has no [policy_params]
    (one set up by [Policy.__init__] only) [__getstate__] raises
    [AttributeError].  On an object that has its parameters, all holding a
    value, [__getstate__] returns the dict of what
    [Serializable.__getstate__] returns and of the parameter values
    [get_param_values()] reads.  [__setstate__] of that dict, on an object
    that [Serializable.__setstate__] rebuilds with parameters under the
    same keys, pairwise distinct and of the same dtypes and shapes, runs
    the global initialiser, then [set_params] on the saved values, and
    returns: [get_param_values()] then reads the saved values. *)
Theorem getstate_setstate_roundtrip
  (w w1 u u1 : World Policy.instance) (a : pickled_args)
  (ps ps' : odict tfVariable) :
  Policy.Serializable___getstate__ w = (Ret a, w1) →
  (Policy.policy_params (self w1) = None →
   Policy.__getstate__ w = (Raise AttributeError, w1)) ∧
  (Policy.policy_params (self w1) = Some ps →
   Forall (λ v, is_Some (tf_value (tf_store (tf w1)) v)) (odict_values ps) →
   Policy.Serializable___setstate__ a u = (Ret (), u1) →
   Policy.policy_params (self u1) = Some ps' →
   odict_keys ps' = odict_keys ps →
   NoDup (var_id <$> odict_values ps') →
   Forall2 (λ v v', var_dtype v' = var_dtype v ∧ var_shape v' = var_shape v)
           (odict_values ps) (odict_values ps') →
   ∃ vals u2,
     Policy.get_param_values w1 = (Ret vals, w1) ∧
     odict_keys vals = odict_keys ps ∧
     Policy.__getstate__ w
     = (Ret {| Policy.init_args := a; Policy.network_params := vals |}, w1) ∧
     Policy.__setstate__
       {| Policy.init_args := a; Policy.network_params := vals |} u
     = (Ret (), u2) ∧
     self u2 = self u1 ∧
     tf_store (tf u2)
     = assign_all (zip (odict_values ps') (odict_values vals))
                  (initialized (tf u1)) ∧
     Policy.get_param_values u2 = (Ret vals, u2)).
Proof.
  intros Hget. split.
  { intros Hnone. unfold Policy.__getstate__.
    rewrite (bind_returns _ _ _ _ _ Hget).
    unfold Policy.get_param_values, Policy.self_policy_params.
    rewrite !bind_run, Hnone. reflexivity. }
  intros Hps Hinit Hset Hps' Hkeys Hnd Htypes.
  destruct (fetch_dict_initialised _ _ Hinit) as [vals Hvals].
  pose proof (fetch_dict_keys _ _ _ Hvals) as Hvkeys.
  pose proof (fetch_dict_values _ _ _ Hvals) as Hvalues.
  pose proof (get_param_values_run w1 ps vals Hps Hvals) as Hread.
  assert (Hvalues' : Forall2 (λ kv kx, kx.1 = kv.1 ∧ is_value_of kv.2 kx.2 = true)
                             ps' vals).
  { apply Forall2_same_length_lookup. split.
    - apply Forall2_length in Htypes, Hvalues. unfold odict_values in Htypes.
      rewrite !length_fmap in Htypes. lia.
    - intros i [k' v'] [kx x] Hi' Hx.
      destruct (lookup_lt_is_Some_2 ps i) as [[k v] Hi].
      { apply Forall2_length in Hvalues. rewrite Hvalues.
        eapply lookup_lt_Some, Hx. }
      destruct (Forall2_lookup_lr _ _ _ _ _ _ Hvalues Hi Hx) as [Hk Hv].
      assert (Hty : var_dtype v' = var_dtype v ∧ var_shape v' = var_shape v).
      { apply (Forall2_lookup_lr _ _ _ i _ _ Htypes);
          unfold odict_values; rewrite list_lookup_fmap.
        - rewrite Hi. reflexivity.
        - rewrite Hi'. reflexivity. }
      cbn in *. split.
      + apply (f_equal (λ l, l !! i)) in Hkeys. unfold odict_keys in Hkeys.
        rewrite !list_lookup_fmap, Hi, Hi' in Hkeys. cbn in Hkeys. congruence.
      + rewrite (is_value_of_same_type v v' x); [exact Hv | apply Hty..]. }
  set (ui := on_tf (λ g, set_store (initialized g) g) u1).
  assert (Hui : Policy.policy_params (self ui) = Some ps') by exact Hps'.
  destruct (set_params_accepts ui ps' vals vals Hui)
    as (u2 & Hrun & Hself & _ & _ & _ & Hstore).
  { apply keys_match_true. rewrite Hkeys, <- Hvkeys. apply keys_match_refl. }
  { apply convert_params_values, Hvalues'. }
  exists vals, u2. repeat split.
  - exact Hread.
  - exact Hvkeys.
  - unfold Policy.__getstate__.
    rewrite (bind_returns _ _ _ _ _ Hget), (bind_returns _ _ _ _ _ Hread).
    reflexivity.
  - unfold Policy.__setstate__. cbn [Policy.init_args Policy.network_params].
    rewrite (bind_returns _ _ _ _ _ Hset).
    rewrite (bind_returns session_run_global_variables_initializer _ u1 ui ()
               eq_refl).
    exact Hrun.
  - rewrite Hself. reflexivity.
  - exact Hstore.
  - apply (get_param_values_run u2 ps' vals).
    + rewrite Hself. exact Hui.
    + rewrite Hstore. apply fetch_dict_assign_all; [exact Hnd | exact Hvalues'].
Qed.

(** ** All the methods *)

Lemma raises_returning {S A : Type} (f : A → retval) (m : M S A) (s : S)
  (e : exn) :
  raises e (returning f m) s ↔ raises e m s.
Proof.
  unfold raises, returning. rewrite bind_run.
  destruct (m s) as [[a|e'] s']; cbn; [split; discriminate|].
  split; intros [= ->]; reflexivity.
Qed.

Lemma raises_inherited {A : Type} (m : M (World Policy.instance) A)
  (w : World MetaPolicy.instance) (e : exn) :
  raises e (MetaPolicy.inherited m) w ↔ raises e m (policy_world w).
Proof. reflexivity. Qed.

Lemma get_param_values_outcome (w : World Policy.instance) :
  (∃ vals, (Policy.get_param_values w).1 = Ret vals) ∨
  (Policy.get_param_values w).1 = Raise AttributeError ∨
  (Policy.get_param_values w).1 = Raise FailedPreconditionError.
Proof.
  unfold Policy.get_param_values, Policy.self_policy_params, session_run_fetch.
  rewrite bind_run.
  destruct (Policy.policy_params (self w)) as [ps|]; [|right; left; reflexivity].
  rewrite bind_run.
  destruct (fetch_dict (tf_store (tf w)) ps) as [vals|].
  - left. exists vals. reflexivity.
  - right. right. reflexivity.
Qed.

(** What [__getstate__] raises and [get_param_values] cannot raise comes
    from the base class. *)
Lemma getstate_raises (w : World Policy.instance) (e : exn) :
  e ≠ AttributeError → e ≠ FailedPreconditionError →
  raises e Policy.__getstate__ w →
  raises e Policy.Serializable___getstate__ w.
Proof.
  intros He1 He2. unfold raises, Policy.__getstate__. rewrite bind_run.
  destruct (Policy.Serializable___getstate__ w) as [[a|e'] w1];
    [|cbn; intros [= ->]; reflexivity].
  rewrite bind_run.
  destruct (get_param_values_outcome w1) as [[vals Hv] | [Hv | Hv]];
    destruct (Policy.get_param_values w1) as [[v|e'] w2]; cbn in *;
    congruence.
Qed.

(** What [__setstate__] raises comes from the base class or from
    [set_params]. *)
Lemma setstate_raises (st : Policy.state) (w : World Policy.instance) (e : exn) :
  raises e (Policy.__setstate__ st) w →
  raises e (Policy.Serializable___setstate__ (Policy.init_args st)) w ∨
  ∃ w', Policy.Serializable___setstate__ (Policy.init_args st) w = (Ret (), w') ∧
        raises e (Policy.set_params (Policy.network_params st))
          (on_tf (λ g, set_store (initialized g) g) w').
Proof.
  unfold raises at 1, Policy.__setstate__. rewrite bind_run.
  destruct (Policy.Serializable___setstate__ (Policy.init_args st) w)
    as [[[]|e'] w1] eqn:Hser.
  - intros Hraise. right. exists w1. split; [reflexivity|]. exact Hraise.
  - intros Hraise. left. unfold raises. rewrite Hser. exact Hraise.
Qed.

(** C2, as the code has it: the abstract methods ([build_graph],
    [get_action], [get_actions], [distribution], [distribution_info_sym]
    and [distribution_info_keys] of [Policy]; [build_graph],
    [_get_pre_update_actions] and [_get_post_update_actions] of
    [MetaPolicy]) raise [NotImplementedError] on every object and argument
    and change nothing, and so does [MetaPolicy.get_actions], which calls
    one of them.  [reset] and [log_diagnostics] return [None] and change
    nothing; [switch_to_pre_update] and [update_task_parameters] return
    [None], having changed the object only.  [get_params],
    [get_param_values], [set_params] and [_create_placeholders_for_vars]
    never raise [NotImplementedError]; [__getstate__] and [__setstate__]
    raise it only when the [Serializable] method they call does. *)
Theorem methods_by_kind (c : call) (w : World MetaPolicy.instance) :
  match kind_of c with
  | abstract_stub | dispatch_to_stubs =>
      exec c w = (Raise NotImplementedError, w)
  | empty_body =>
      exec c w = (Ret PyNone, w)
  | mode_switch =>
      ∃ w', exec c w = (Ret PyNone, w') ∧
            MetaPolicy.super (self w') = MetaPolicy.super (self w) ∧
            tf w' = tf w
  | working =>
      ¬ raises NotImplementedError (exec c) w
  | pickling =>
      raises NotImplementedError (exec c) w →
      serializable_raises NotImplementedError c (policy_world w)
  end.
Proof.
  destruct c; cbn [kind_of];
    try (destruct w as [[sup mode vals] g]; reflexivity);
    try (destruct w as [[sup [] vals] g]; reflexivity).
  - (* get_params *)
    cbn [exec]. rewrite raises_returning, raises_inherited.
    unfold raises, Policy.get_params, Policy.self_policy_params.
    destruct (Policy.policy_params (self (policy_world w))); discriminate.
  - (* get_param_values *)
    cbn [exec]. rewrite raises_returning, raises_inherited. unfold raises.
    destruct (get_param_values_outcome (policy_world w))
      as [[vals Hv] | [Hv | Hv]]; rewrite Hv; discriminate.
  - (* set_params *)
    cbn [exec]. rewrite raises_returning, raises_inherited. unfold raises.
    destruct (set_params_outcome (policy_world w) policy_params)
      as [Hv | [Hv | [Hv | [Hv | Hv]]]]; rewrite Hv; discriminate.
  - (* __getstate__ *)
    cbn [exec serializable_raises].
    rewrite raises_returning, raises_inherited.
    apply getstate_raises; discriminate.
  - (* __setstate__ *)
    cbn [exec serializable_raises].
    rewrite raises_returning, raises_inherited. intros Hraise.
    destruct (setstate_raises _ _ _ Hraise) as [Hser | (w' & _ & Hset)];
      [exact Hser|].
    unfold raises in Hset.
    destruct (set_params_outcome
                (on_tf (λ g, set_store (initialized g) g) w')
                (Policy.network_params st)) as [Hv | [Hv | [Hv | [Hv | Hv]]]];
      rewrite Hv in Hset; discriminate.
  - (* _create_placeholders_for_vars *)
    cbn [exec]. rewrite raises_returning. unfold raises.
    destruct (MetaPolicy.isinstance_list scopes
              || MetaPolicy.isinstance_tuple scopes) eqn:Hscopes.
    + destruct (create_placeholders_for_vars_run w scopes meta_batch_size
                  graph_keys Hscopes) as (phs & w' & -> & _). discriminate.
    + rewrite create_placeholders_for_vars_assert by exact Hscopes.
      discriminate.
  - (* switch_to_pre_update *)
    eexists. split; [reflexivity|]. split; reflexivity.
  - (* update_task_parameters *)
    eexists. split; [reflexivity|]. split; reflexivity.
Qed.

(** C9, as the code has it: two methods check an argument with an
    [assert].  [set_params] raises [AssertionError] exactly on keys that
    differ from the keys of the parameters at a common position, and
    [_create_placeholders_for_vars] exactly on [scopes] that is neither a
    list nor a tuple.  No other method has a check of its own:
    [__setstate__] raises [AssertionError] only when the [Serializable]
    method it calls does or when the assertion of its [set_params] call
    fails, [__getstate__] only when the [Serializable] method it calls
    does, and the remaining methods never. *)
Theorem validation_by_method (c : call) (w : World MetaPolicy.instance) :
  match c with
  | Policy_set_params pp =>
      raises AssertionError (exec c) w ↔
      ∃ ps, Policy.policy_params (MetaPolicy.super (self w)) = Some ps ∧
            keys_differ (odict_keys ps) (odict_keys pp)
  | MetaPolicy__create_placeholders_for_vars scopes _ _ =>
      raises AssertionError (exec c) w ↔
      MetaPolicy.isinstance_list scopes || MetaPolicy.isinstance_tuple scopes
      = false
  | Policy___setstate__ st =>
      raises AssertionError (exec c) w →
      serializable_raises AssertionError c (policy_world w) ∨
      rebuilt_keys_differ st (policy_world w)
  | Policy___getstate__ =>
      raises AssertionError (exec c) w →
      serializable_raises AssertionError c (policy_world w)
  | _ => ¬ raises AssertionError (exec c) w
  end.
Proof.
  destruct c;
    try (destruct w as [[sup [] vals] g]; cbv; discriminate).
  - (* get_params *)
    cbn [exec]. rewrite raises_returning, raises_inherited.
    unfold raises, Policy.get_params, Policy.self_policy_params.
    destruct (Policy.policy_params (self (policy_world w))); discriminate.
  - (* get_param_values *)
    cbn [exec]. rewrite raises_returning, raises_inherited. unfold raises.
    destruct (get_param_values_outcome (policy_world w))
      as [[vals Hv] | [Hv | Hv]]; rewrite Hv; discriminate.
  - (* set_params *)
    cbn [exec]. rewrite raises_returning, raises_inherited.
    apply set_params_raises_AssertionError.
  - (* __getstate__ *)
    cbn [exec serializable_raises].
    rewrite raises_returning, raises_inherited.
    apply getstate_raises; discriminate.
  - (* __setstate__ *)
    cbn [exec serializable_raises].
    rewrite raises_returning, raises_inherited. intros Hraise.
    destruct (setstate_raises _ _ _ Hraise) as [Hser | (w' & Hser & Hset)];
      [left; exact Hser|].
    right. apply set_params_raises_AssertionError in Hset as (ps & Hps & Hdiff).
    exists w', ps. split; [exact Hser|]. split; [exact Hps | exact Hdiff].
  - (* _create_placeholders_for_vars *)
    cbn [exec]. rewrite raises_returning. unfold raises.
    destruct (MetaPolicy.isinstance_list scopes
              || MetaPolicy.isinstance_tuple scopes) eqn:Hscopes.
    + destruct (create_placeholders_for_vars_run w scopes meta_batch_size
                  graph_keys Hscopes) as (phs & w' & -> & _).
      split; discriminate.
    + rewrite create_placeholders_for_vars_assert by exact Hscopes. done.
Qed.

(** ** Writing and reading parameters *)

Lemma get_param_values_returns (w w1 : World Policy.instance)
  (vals : odict ndarray) :
  Policy.get_param_values w = (Ret vals, w1) →
  w1 = w ∧
  ∃ ps, Policy.policy_params (self w) = Some ps ∧
        fetch_dict (tf_store (tf w)) ps = Some vals.
Proof.
  unfold Policy.get_param_values, Policy.self_policy_params, session_run_fetch.
  rewrite bind_run.
  destruct (Policy.policy_params (self w)) as [ps|] eqn:Hps; [|discriminate].
  rewrite bind_run.
  destruct (fetch_dict (tf_store (tf w)) ps) as [r|] eqn:Hr; [|discriminate].
  cbn. intros [= <- <-]. split; [reflexivity|]. exists ps.
  split; [reflexivity | exact Hr].
Qed.

(** Assigning to every variable the value it holds changes nothing. *)
Lemma assign_all_same (vs : list tfVariable) (xs : list ndarray)
  (s : gmap nat ndarray) :
  Forall2 (λ v x, s !! var_id v = Some x) vs xs →
  assign_all (zip vs xs) s = s.
Proof.
  induction 1 as [|v x vs xs Hv _ IH]; [reflexivity|].
  cbn [zip zip_with]. rewrite assign_all_cons, insert_id by exact Hv.
  exact IH.
Qed.

(** The value of an assigned variable does not depend on the store the
    assignments start from. *)
Lemma assign_all_assigned (l : list (tfVariable * ndarray))
  (s s' : gmap nat ndarray) (i : nat) :
  i ∈ var_id <$> l.*1 → assign_all l s !! i = assign_all l s' !! i.
Proof.
  revert s s'. induction l as [|[v x] l IH]; intros s s' Hi;
    [by apply elem_of_nil in Hi|].
  rewrite !assign_all_cons.
  destruct (decide (i ∈ var_id <$> l.*1)) as [Hin|Hout]; [apply IH, Hin|].
  rewrite !assign_all_other by exact Hout.
  cbn in Hi. apply elem_of_cons in Hi as [-> | Hi]; [|done].
  rewrite !lookup_insert_eq. reflexivity.
Qed.

Lemma Forall2_keys {V W : Type} (R : V → W → Prop) (d : odict V) (r : odict W) :
  Forall2 (λ kv kx, kx.1 = kv.1 ∧ R kv.2 kx.2) d r →
  odict_keys r = odict_keys d.
Proof.
  unfold odict_keys.
  induction 1 as [|[k v] [k' x] d r [Hk _] _ IH]; [reflexivity|].
  cbn in *. congruence.
Qed.

Lemma Forall2_keys_values {V W : Type} (R : V → W → Prop) (d : odict V)
  (r : odict W) :
  odict_keys r = odict_keys d →
  Forall2 R (odict_values d) (odict_values r) →
  Forall2 (λ kv kx, kx.1 = kv.1 ∧ R kv.2 kx.2) d r.
Proof.
  unfold odict_keys, odict_values. revert r.
  induction d as [|[k v] d IH]; intros [|[k' x] r] Hkeys Hall;
    try discriminate; [constructor|].
  cbn in *. injection Hkeys as Hk Hkeys.
  apply Forall2_cons in Hall as [Hx Hall].
  constructor; [done|]. apply IH; assumption.
Qed.

(** X1: on an object whose parameters are pairwise distinct variables,
    [set_params(p)] with the keys of the parameters, when every value of
    [p] can be converted to the dtype of its variable and then has its
    shape, returns, and [get_param_values()] then returns the converted
    values under the keys of [p]: [p] itself when its values are arrays of
    the dtypes and shapes of the variables. *)
Theorem set_params_then_get_param_values (w : World Policy.instance)
  (ps : odict tfVariable) (pp qq : odict ndarray) :
  Policy.policy_params (self w) = Some ps →
  odict_keys pp = odict_keys ps →
  NoDup (var_id <$> odict_values ps) →
  convert_params ps pp = Some qq →
  ∃ w', Policy.set_params pp w = (Ret (), w') ∧
        Policy.get_param_values w' = (Ret qq, w') ∧
        odict_keys qq = odict_keys pp ∧
        (Forall2 (λ v x, is_value_of v x = true)
                 (odict_values ps) (odict_values pp) → qq = pp).
Proof.
  intros Hps Hkeys Hnd Hqq.
  pose proof (convert_params_full ps pp qq Hkeys Hqq) as Hvalues.
  destruct (set_params_accepts w ps pp qq Hps)
    as (w' & Hrun & Hself & _ & _ & _ & Hstore); [|exact Hqq|].
  { apply keys_match_true. rewrite Hkeys. apply keys_match_refl. }
  exists w'. split; [exact Hrun|]. split; [|split].
  - apply (get_param_values_run w' ps qq).
    + rewrite Hself. exact Hps.
    + rewrite Hstore. apply fetch_dict_assign_all; [exact Hnd | exact Hvalues].
  - rewrite (Forall2_keys (λ v x, is_value_of v x = true) _ _ Hvalues).
    symmetry. exact Hkeys.
  - intros Hpp.
    pose proof (convert_params_values ps pp
                  (Forall2_keys_values (λ v x, is_value_of v x = true)
                     _ _ Hkeys Hpp)) as Hsame.
    congruence.
Qed.

(** X2: what [get_param_values()] returns is accepted by [set_params],
    which then leaves every variable with the value it had. *)
Theorem get_param_values_then_set_params (w w1 : World Policy.instance)
  (vals : odict ndarray) :
  Policy.get_param_values w = (Ret vals, w1) →
  ∃ w', Policy.set_params vals w1 = (Ret (), w') ∧
        self w' = self w ∧
        tf_store (tf w') = tf_store (tf w).
Proof.
  intros Hget.
  destruct (get_param_values_returns _ _ _ Hget) as (-> & ps & Hps & Hvals).
  destruct (set_params_accepts w ps vals vals Hps)
    as (w' & Hrun & Hself & _ & _ & _ & Hstore).
  { apply keys_match_true. rewrite (fetch_dict_keys _ _ _ Hvals).
    apply keys_match_refl. }
  { apply convert_params_values, (fetch_dict_values _ _ _ Hvals). }
  exists w'. split; [exact Hrun|]. split; [exact Hself|].
  rewrite Hstore. apply assign_all_same.
  apply fetch_dict_Some in Hvals. unfold odict_values.
  clear -Hvals. induction Hvals as [|[k v] [k' x] d r [_ Hv] _ IH];
    constructor; [|assumption].
  apply tf_value_Some in Hv. apply Hv.
Qed.


(** X4: a call of [set_params] that passes its assertion has added one
    placeholder node to the graph per zipped variable (as many as the
    shorter of the parameters and the argument), whether the run of the
    assignments then succeeds or raises: the nodes of one call are not
    reused by the next.  The object, with its [policy_params], the global
    variables and the collections are as before. *)
Theorem set_params_adds_placeholders (w : World Policy.instance)
  (ps : odict tfVariable) (pp : odict ndarray) :
  Policy.policy_params (self w) = Some ps →
  ¬ keys_differ (odict_keys ps) (odict_keys pp) →
  next_node (Policy.set_params pp w).2
  = next_node w + length ps `min` length pp ∧
  self (Policy.set_params pp w).2 = self w ∧
  tf_global_variables (tf (Policy.set_params pp w).2)
  = tf_global_variables (tf w) ∧
  tf_collections (tf (Policy.set_params pp w).2) = tf_collections (tf w).
Proof.
  intros Hps Hsame. apply keys_match_true in Hsame.
  destruct (set_params_passes w ps pp Hps Hsame)
    as (r & w' & -> & Hself & Hglob & Hcoll & Hnext & _).
  cbn [snd]. done.
Qed.

(** X5: of two calls of [set_params] in a row, each with a dict whose
    zipped values can be converted to the dtypes of the variables and then
    have their shapes, the second one decides when its argument is at least
    as long as the first one's: the variables hold what they hold after the
    second call alone. *)
Theorem set_params_last_wins (w : World Policy.instance)
  (ps : odict tfVariable) (pp qq : odict ndarray) :
  Policy.policy_params (self w) = Some ps →
  ¬ keys_differ (odict_keys ps) (odict_keys pp) →
  ¬ keys_differ (odict_keys ps) (odict_keys qq) →
  is_Some (convert_params ps pp) →
  is_Some (convert_params ps qq) →
  length pp ≤ length qq →
  ∃ w1 w2 w2',
    Policy.set_params pp w = (Ret (), w1) ∧
    Policy.set_params qq w1 = (Ret (), w2) ∧
    Policy.set_params qq w = (Ret (), w2') ∧
    tf_store (tf w2) = tf_store (tf w2').
Proof.
  intros Hps Hpp Hqq [pp' Hpp'] [qq' Hqq'] Hlen.
  destruct (set_params_accepts w ps pp pp' Hps Hpp Hpp')
    as (w1 & Hrun1 & Hself1 & _ & _ & _ & Hs1).
  assert (Hps1 : Policy.policy_params (self w1) = Some ps)
    by (rewrite Hself1; exact Hps).
  destruct (set_params_accepts w1 ps qq qq' Hps1 Hqq Hqq')
    as (w2 & Hrun2 & _ & _ & _ & _ & Hs2).
  destruct (set_params_accepts w ps qq qq' Hps Hqq Hqq')
    as (w2' & Hrun2' & _ & _ & _ & _ & Hs2').
  exists w1, w2, w2'. repeat split; try assumption.
  rewrite Hs2, Hs2', Hs1. apply map_eq. intros i.
  destruct (decide (i ∈ var_id <$> (zip (odict_values ps) (odict_values qq')).*1))
    as [Hin|Hout].
  - apply assign_all_assigned, Hin.
  - rewrite !assign_all_other; try exact Hout; [reflexivity|].
    intros Hin. apply Hout. revert Hin. rewrite !zip_fst_take.
    unfold odict_values at 1 3. rewrite !length_fmap.
    rewrite (convert_params_length _ _ _ Hpp'), (convert_params_length _ _ _ Hqq').
    intros Hin. apply list_elem_of_fmap in Hin as (v & -> & Hv).
    apply list_elem_of_fmap. exists v. split; [reflexivity|].
    apply list_elem_of_lookup in Hv as [j Hj].
    apply lookup_take_Some in Hj as [Hj Hlt].
    apply list_elem_of_lookup. exists j.
    apply lookup_take_Some. split; [exact Hj | lia].
Qed.

(** X6: an object that only [Policy.__init__] has set up has no
    [policy_params]: [get_params], [get_param_values] and [set_params]
    raise [AttributeError] on it, and change nothing. *)
Theorem fresh_policy_has_no_parameters (args : locals) (g : TF)
  (pp : odict ndarray) :
  Policy.get_params {| self := Policy.__init__ args; tf := g |}
  = (Raise AttributeError, {| self := Policy.__init__ args; tf := g |}) ∧
  Policy.get_param_values {| self := Policy.__init__ args; tf := g |}
  = (Raise AttributeError, {| self := Policy.__init__ args; tf := g |}) ∧
  Policy.set_params pp {| self := Policy.__init__ args; tf := g |}
  = (Raise AttributeError, {| self := Policy.__init__ args; tf := g |}).
Proof. repeat split. Qed.

(** ** Unpickling and the other variables of the session *)

Lemma initializer_other (l : list tfVariable) (s : gmap nat ndarray) (i : nat) :
  i ∉ var_id <$> l →
  foldl (λ s v, <[var_id v := var_init v]> s) s l !! i = s !! i.
Proof.
  revert s. induction l as [|a l IH]; intros s Hi; [reflexivity|].
  cbn in Hi. apply not_elem_of_cons in Hi as [Hne Hi].
  cbn [foldl]. rewrite IH by exact Hi. apply lookup_insert_ne. congruence.
Qed.

(** The initialiser gives every global variable its initial value. *)
Lemma initialized_lookup (g : TF) (v : tfVariable) :
  NoDup (var_id <$> tf_global_variables g) →
  v ∈ tf_global_variables g →
  initialized g !! var_id v = Some (var_init v).
Proof.
  unfold initialized. generalize (tf_store g).
  induction (tf_global_variables g) as [|a l IH]; intros s Hnd Hv;
    [by apply elem_of_nil in Hv|].
  cbn in Hnd. apply NoDup_cons in Hnd as [Ha Hnd]. cbn [foldl].
  apply elem_of_cons in Hv as [-> | Hv].
  - rewrite initializer_other by exact Ha. apply lookup_insert_eq.
  - apply IH; assumption.
Qed.

Lemma setstate_until_set_params (st : Policy.state)
  (u u1 : World Policy.instance) :
  Policy.Serializable___setstate__ (Policy.init_args st) u = (Ret (), u1) →
  Policy.__setstate__ st u
  = Policy.set_params (Policy.network_params st)
      (on_tf (λ g, set_store (initialized g) g) u1).
Proof.
  intros Hset. unfold Policy.__setstate__.
  rewrite (bind_returns _ _ _ _ _ Hset).
  rewrite (bind_returns session_run_global_variables_initializer _ u1
             (on_tf (λ g, set_store (initialized g) g) u1) () eq_refl).
  reflexivity.
Qed.

(** X7: [__setstate__] runs the initialiser of all global variables of the
    session before [set_params].  When the rebuilt object has parameters
    and the saved keys pass the assertion, a global variable that is not
    one of the restored parameters holds its initial value afterwards,
    whatever it held before (the ids of the global variables being pairwise
    distinct), whether [set_params] then returns or its run raises; and
    [__setstate__] returns when every saved value can be converted to the
    dtype of its variable and then has its shape. *)
Theorem setstate_reinitialises_other_variables (st : Policy.state)
  (u u1 : World Policy.instance) (ps' : odict tfVariable) (v : tfVariable) :
  Policy.Serializable___setstate__ (Policy.init_args st) u = (Ret (), u1) →
  Policy.policy_params (self u1) = Some ps' →
  ¬ keys_differ (odict_keys ps') (odict_keys (Policy.network_params st)) →
  NoDup (var_id <$> tf_global_variables (tf u1)) →
  v ∈ tf_global_variables (tf u1) →
  var_id v ∉ var_id <$> take (length (Policy.network_params st))
                             (odict_values ps') →
  tf_store (tf (Policy.__setstate__ st u).2) !! var_id v = Some (var_init v) ∧
  (is_Some (convert_params ps' (Policy.network_params st)) →
   (Policy.__setstate__ st u).1 = Ret ()).
Proof.
  intros Hset Hps' Hsame Hnd Hv Hout. apply keys_match_true in Hsame.
  rewrite (setstate_until_set_params st u u1 Hset).
  destruct (set_params_passes (on_tf (λ g, set_store (initialized g) g) u1)
              ps' (Policy.network_params st) Hps' Hsame)
    as (r & u2 & -> & _ & _ & _ & _ & Hframe & Hr).
  cbn [fst snd]. split.
  - rewrite (Hframe _ Hout). apply initialized_lookup; assumption.
  - intros [qq Hqq]. rewrite Hqq in Hr. apply Hr.
Qed.

(** X8: when the rebuilt object has parameters whose keys differ from the
    saved ones, [__setstate__] raises [AssertionError], and the session is
    left with every global variable reinitialised: the initialiser has run
    before [set_params] checks the keys. *)
Theorem setstate_fails_after_reinitialising (st : Policy.state)
  (u u1 : World Policy.instance) (ps' : odict tfVariable) :
  Policy.Serializable___setstate__ (Policy.init_args st) u = (Ret (), u1) →
  Policy.policy_params (self u1) = Some ps' →
  keys_differ (odict_keys ps') (odict_keys (Policy.network_params st)) →
  Policy.__setstate__ st u
  = (Raise AssertionError, on_tf (λ g, set_store (initialized g) g) u1).
Proof.
  intros Hset Hps' Hdiff. apply keys_match_differ in Hdiff.
  rewrite (setstate_until_set_params st u u1 Hset).
  unfold Policy.set_params, Policy.get_params, Policy.self_policy_params.
  rewrite bind_run. cbn [on_tf self]. rewrite Hps', bind_run, Hdiff.
  reflexivity.
Qed.

Lemma get_param_values_frame (w : World Policy.instance) :
  (Policy.get_param_values w).2 = w.
Proof.
  unfold Policy.get_param_values, Policy.self_policy_params, session_run_fetch.
  rewrite bind_run.
  destruct (Policy.policy_params (self w)) as [ps|]; [|reflexivity].
  rewrite bind_run.
  destruct (fetch_dict (tf_store (tf w)) ps); reflexivity.
Qed.

(** X9: pickling reads only: whatever its outcome, [__getstate__] leaves
    the state that the [__getstate__] of the base class has left. *)
Theorem getstate_reads_only (w : World Policy.instance) :
  (Policy.__getstate__ w).2 = (Policy.Serializable___getstate__ w).2.
Proof.
  unfold Policy.__getstate__. rewrite bind_run.
  destruct (Policy.Serializable___getstate__ w) as [[a|e] w1]; [|reflexivity].
  rewrite bind_run. pose proof (get_param_values_frame w1) as Hframe.
  destruct (Policy.get_param_values w1) as [[v|e] w2]; exact Hframe.
Qed.

(** ** Placeholders: nothing to do, and fresh nodes *)

Lemma mapM_cons_run {S A B : Type} (f : A → M S B) (x : A) (l : list A) :
  mapM f (x :: l) = f x ≫= λ y, mapM f l ≫= λ k, mret (y :: k).
Proof. reflexivity. Qed.

Lemma create_placeholders_for_no_task (key : string) (l : list string)
  (w : World MetaPolicy.instance) :
  mapM (λ scope,
          var_list ← tf_get_collection key scope;
          mapM (λ _ : Z, MetaPolicy.placeholder_dict scope var_list) [])
       l w
  = (Ret (replicate (length l) []), w).
Proof.
  induction l as [|scope l IH]; [reflexivity|].
  rewrite mapM_cons_run, bind_run.
  change ((tf_get_collection key scope
           ≫= λ var_list : list tfVariable,
                mapM (λ _ : Z, MetaPolicy.placeholder_dict scope var_list) []) w)
    with (Ret (A := list (odict Placeholder)) [], w).
  cbv beta iota. rewrite (bind_returns _ _ _ _ _ IH). reflexivity.
Qed.

(** X10: with a meta batch size that is not positive
    [_create_placeholders_for_vars] returns an empty list for every scope,
    and with no scope it returns the empty list; it then makes no
    placeholder and leaves the state as it was. *)
Theorem create_placeholders_nothing_to_do
  (w : World MetaPolicy.instance) (scopes : MetaPolicy.scopes_arg)
  (m : Z) (graph_keys : string) :
  MetaPolicy.isinstance_list scopes || MetaPolicy.isinstance_tuple scopes = true →
  ((m ≤ 0)%Z →
   MetaPolicy._create_placeholders_for_vars scopes m graph_keys w
   = (Ret (replicate (length (MetaPolicy.scopes_iter scopes)) []), w)) ∧
  (MetaPolicy.scopes_iter scopes = [] →
   MetaPolicy._create_placeholders_for_vars scopes m graph_keys w
   = (Ret [], w)).
Proof.
  intros Hscopes. unfold MetaPolicy._create_placeholders_for_vars.
  rewrite Hscopes. cbn [py_assert]. split.
  - intros Hm. unfold py_range. replace (Z.to_nat m) with 0 by lia.
    cbn [seq fmap list_fmap].
    rewrite (bind_returns _ _ w w () eq_refl).
    rewrite (bind_returns _ _ _ _ _
               (create_placeholders_for_no_task graph_keys _ w)).
    reflexivity.
  - intros ->. reflexivity.
Qed.

(** A loop that collects results, each made of fresh nodes, collects
    pairwise distinct nodes, all of them fresh. *)
Lemma mapM_fresh {S A B : Type} (next : S → nat) (ids : B → list nat)
  (f : A → M S B) :
  (∀ x s, ∃ y s', f x s = (Ret y, s') ∧ next s ≤ next s' ∧
                  NoDup (ids y) ∧ ∀ i, i ∈ ids y → next s ≤ i < next s') →
  ∀ l s, ∃ ys s', mapM f l s = (Ret ys, s') ∧ next s ≤ next s' ∧
                  NoDup (concat (ids <$> ys)) ∧
                  ∀ i, i ∈ concat (ids <$> ys) → next s ≤ i < next s'.
Proof.
  intros Hf l. induction l as [|x l IH]; intros s.
  - exists [], s. split; [reflexivity|]. split; [lia|].
    split; [apply NoDup_nil_2|]. intros i Hi. by apply elem_of_nil in Hi.
  - destruct (Hf x s) as (y & s1 & Hy & Hle1 & Hnd1 & Hin1).
    destruct (IH s1) as (ys & s2 & Hys & Hle2 & Hnd2 & Hin2).
    exists (y :: ys), s2. split; [|split; [lia|split]].
    + rewrite mapM_cons_run, (bind_returns _ _ _ _ _ Hy).
      rewrite (bind_returns _ _ _ _ _ Hys). reflexivity.
    + cbn. apply NoDup_app. split; [exact Hnd1|]. split; [|exact Hnd2].
      intros i Hi Hi'. specialize (Hin1 i Hi). specialize (Hin2 i Hi'). lia.
    + cbn. intros i Hi. apply elem_of_app in Hi as [Hi | Hi].
      * specialize (Hin1 i Hi). lia.
      * specialize (Hin2 i Hi). lia.
Qed.

Lemma odict_setitem_ids {V : Type} (g : V → nat) (k : string) (v : V)
  (d : odict V) :
  (∀ i, i ∈ g <$> odict_values (odict_setitem k v d) →
        i = g v ∨ i ∈ g <$> odict_values d) ∧
  (NoDup (g <$> odict_values d) → g v ∉ g <$> odict_values d →
   NoDup (g <$> odict_values (odict_setitem k v d))).
Proof.
  unfold odict_values. induction d as [|[k0 v0] d [IHin IHnd]]; cbn.
  - split.
    + intros i Hi. left. by apply list_elem_of_singleton in Hi.
    + intros _ _. apply NoDup_singleton.
  - destruct (decide (k0 = k)) as [->|Hne]; cbn; split.
    + intros i Hi. apply elem_of_cons in Hi as [-> | Hi]; [by left|].
      right. by apply elem_of_cons; right.
    + intros Hnd Hv. apply NoDup_cons in Hnd as [_ Hnd].
      apply not_elem_of_cons in Hv as [_ Hv].
      apply NoDup_cons. split; assumption.
    + intros i Hi. apply elem_of_cons in Hi as [-> | Hi].
      * right. by apply elem_of_cons; left.
      * destruct (IHin i Hi) as [-> | Hi']; [by left|].
        right. by apply elem_of_cons; right.
    + intros Hnd Hv. apply NoDup_cons in Hnd as [Hv0 Hnd].
      apply not_elem_of_cons in Hv as [Hvv0 Hv].
      apply NoDup_cons. split; [|by apply IHnd].
      intros Hin. destruct (IHin _ Hin) as [Heq | Hin']; [congruence | done].
Qed.

(** [OrderedDict] neither repeats a value of its pairs nor holds a value
    that is not one of theirs. *)
Lemma OrderedDict_ids_from {V : Type} (g : V → nat)
  (pairs : list (string * V)) :
  ∀ acc : list (string * V),
    NoDup (g <$> (odict_values acc ++ odict_values pairs)) →
    NoDup (g <$> odict_values
             (foldl (λ d kv, odict_setitem kv.1 kv.2 d) acc pairs)) ∧
    ∀ i, i ∈ g <$> odict_values
               (foldl (λ d kv, odict_setitem kv.1 kv.2 d) acc pairs) →
         i ∈ g <$> (odict_values acc ++ odict_values pairs).
Proof.
  induction pairs as [|[k v] pairs IH]; intros acc Hnd.
  - cbn in *. rewrite app_nil_r in *. split; [exact Hnd | done].
  - cbn [foldl fst snd].
    destruct (odict_setitem_ids g k v acc) as [Hin Hkeep].
    rewrite fmap_app in Hnd. apply NoDup_app in Hnd as (Hacc & Hdisj & Hrest).
    change (odict_values ((k, v) :: pairs)) with (v :: odict_values pairs)
      in Hdisj, Hrest.
    rewrite fmap_cons in Hdisj, Hrest.
    apply NoDup_cons in Hrest as [Hv Hrest].
    destruct (IH (odict_setitem k v acc)) as [Hnd' Hin'].
    { rewrite fmap_app. apply NoDup_app. split; [|split; [|exact Hrest]].
      - apply Hkeep; [exact Hacc|]. intros Hvin.
        apply (Hdisj _ Hvin). by apply elem_of_cons; left.
      - intros i Hi Hi'. destruct (Hin i Hi) as [-> | Hiacc]; [done|].
        apply (Hdisj _ Hiacc). by apply elem_of_cons; right. }
    split; [exact Hnd'|].
    intros i Hi. specialize (Hin' i Hi). rewrite fmap_app in Hin'.
    change (odict_values ((k, v) :: pairs)) with (v :: odict_values pairs).
    rewrite fmap_app, fmap_cons.
    apply elem_of_app in Hin' as [Hi' | Hi'].
    + destruct (Hin i Hi') as [-> | Hiacc].
      * apply elem_of_app. right. by apply elem_of_cons; left.
      * apply elem_of_app. by left.
    + apply elem_of_app. right. by apply elem_of_cons; right.
Qed.

Lemma concat_singletons {A : Type} (g : A → nat) (l : list A) :
  concat ((λ x, [g x]) <$> l) = g <$> l.
Proof. induction l as [|a l IH]; [reflexivity|]. cbn. by rewrite IH. Qed.

Lemma placeholder_dict_fresh (scope : string) (var_list : list tfVariable)
  (w : World MetaPolicy.instance) :
  ∃ d w', MetaPolicy.placeholder_dict scope var_list w = (Ret d, w') ∧
          next_node w ≤ next_node w' ∧
          NoDup (dict_ids d) ∧
          ∀ i, i ∈ dict_ids d → next_node w ≤ i < next_node w'.
Proof.
  unfold MetaPolicy.placeholder_dict.
  destruct (mapM_fresh (next_node (O := MetaPolicy.instance))
              (λ kp : string * Placeholder, [ph_id kp.2])
              (λ var,
                 let name := remove_scope_from_name (var_name var) scope in
                 ph ← tf_placeholder float32 (Some (var_shape var));
                 mret (name, ph))) with (l := var_list) (s := w)
    as (pairs & w' & Hrun & Hle & Hnd & Hin).
  - intros var s.
    destruct (tf_placeholder_run (O := MetaPolicy.instance) float32
                (Some (var_shape var)) s)
      as (ph & s' & Hph & _ & _ & Hid & Hnext & _).
    exists (remove_scope_from_name (var_name var) scope, ph), s'.
    unfold next_node. split; [|split; [lia|split]].
    + cbn zeta. rewrite (bind_returns _ _ _ _ _ Hph). reflexivity.
    + apply NoDup_singleton.
    + cbn. intros i Hi. apply list_elem_of_singleton in Hi. lia.
  - rewrite (concat_singletons (λ kp : string * Placeholder, ph_id kp.2))
      in Hnd, Hin.
    destruct (OrderedDict_ids_from ph_id pairs []) as [Hnd' Hin'].
    { cbn. unfold odict_values. rewrite <- list_fmap_compose. exact Hnd. }
    exists (OrderedDict pairs), w'. split; [|split; [exact Hle|split]].
    + rewrite (bind_returns _ _ _ _ _ Hrun). reflexivity.
    + exact Hnd'.
    + intros i Hi. apply Hin. specialize (Hin' i Hi). cbn in Hin'.
      unfold odict_values in Hin'. rewrite <- list_fmap_compose in Hin'.
      exact Hin'.
Qed.

(** X12: the placeholders [_create_placeholders_for_vars] returns are
    nodes it has made itself, and no two of them are the same node: the
    dicts of two tasks, or of two scopes, share no placeholder. *)
Theorem create_placeholders_for_vars_fresh
  (w : World MetaPolicy.instance) (scopes : MetaPolicy.scopes_arg)
  (m : Z) (graph_keys : string) :
  MetaPolicy.isinstance_list scopes || MetaPolicy.isinstance_tuple scopes = true →
  ∃ placeholders w',
    MetaPolicy._create_placeholders_for_vars scopes m graph_keys w
      = (Ret placeholders, w') ∧
    NoDup (placeholders_ids placeholders) ∧
    ∀ i, i ∈ placeholders_ids placeholders →
         next_node w ≤ i < next_node w'.
Proof.
  intros Hscopes. unfold MetaPolicy._create_placeholders_for_vars.
  rewrite Hscopes. cbn [py_assert].
  destruct (mapM_fresh (next_node (O := MetaPolicy.instance)) entry_ids
     (λ scope,
        var_list ← tf_get_collection graph_keys scope;
        mapM (λ _ : Z, MetaPolicy.placeholder_dict scope var_list)
             (py_range m)))
    with (l := MetaPolicy.scopes_iter scopes) (s := w)
    as (placeholders & w' & Hrun & _ & Hnd & Hin).
  - intros scope s.
    destruct (mapM_fresh (next_node (O := MetaPolicy.instance)) dict_ids
       (λ _ : Z, MetaPolicy.placeholder_dict scope
                   (collected (tf s) graph_keys scope)))
      with (l := py_range m) (s := s)
      as (entry & s' & Hentry & Hle & Hnd & Hin).
    + intros _ s1. apply placeholder_dict_fresh.
    + exists entry, s'. split; [|split; [exact Hle|split; assumption]].
      rewrite (bind_returns (tf_get_collection graph_keys scope) _ s s
                 (collected (tf s) graph_keys scope) eq_refl).
      exact Hentry.
  - exists placeholders, w'. split; [|split; assumption].
    rewrite (bind_returns _ _ w w () eq_refl).
    rewrite (bind_returns _ _ _ _ _ Hrun). reflexivity.
Qed.

End Properties.

(** * The properties on the two-parameter policy *)

Section OnExample.
#[local] Existing Instance Example.imports.
#[local] Existing Instance Example.serializable.

(** Two tasks, one parameter dict each. *)
Lemma reachable_mode_invariant_witness :
  reachable
    (MetaPolicy.update_task_parameters
       (Some [[("W"%string, Example.full [4; 2]%Z 1)];
              [("W"%string, Example.full [4; 2]%Z 2)]])
       {| self := MetaPolicy.__init__ (); tf := Example.graph ∅ |}).2 ∧
  mode_invariant
    (self
       (MetaPolicy.update_task_parameters
          (Some [[("W"%string, Example.full [4; 2]%Z 1)];
                 [("W"%string, Example.full [4; 2]%Z 2)]])
          {| self := MetaPolicy.__init__ (); tf := Example.graph ∅ |}).2).
Proof.
  assert (Hreach : reachable
    (MetaPolicy.update_task_parameters
       (Some [[("W"%string, Example.full [4; 2]%Z 1)];
              [("W"%string, Example.full [4; 2]%Z 2)]])
       {| self := MetaPolicy.__init__ (); tf := Example.graph ∅ |}).2).
  { exact (reachable_update _ _ (reachable_init () (Example.graph ∅))). }
  split; [exact Hreach|].
  exact (proj2 (reachable_mode_invariant () _) Hreach).
Defined.

(** A subclass is asked in pre-update mode. *)
Lemma get_actions_dispatch_witness :
  MetaPolicy._pre_update_mode (self (Example.meta ∅)) = true ∧
  MetaPolicy.get_actions (impl := Example.answering) () (Example.meta ∅)
  = (Ret (), Example.meta ∅).
Proof.
  split; [reflexivity|].
  exact (proj1 (get_actions_dispatch Example.answering () (Example.meta ∅))
           eq_refl).
Defined.

(** Two dicts for the one scope, each with a placeholder per parameter. *)
Lemma create_placeholders_for_vars_witness :
  ∃ placeholders w',
    MetaPolicy._create_placeholders_for_vars
      (MetaPolicy.scopes_list ["policy"%string]) 2 "trainable_variables"
      (Example.meta ∅)
    = (Ret placeholders, w') ∧
    same_but_nodes (Example.meta ∅) w' ∧
    length placeholders = 1 ∧
    Forall2 (λ scope entry,
               Z.of_nat (length entry) = 2%Z ∧
               Forall (placeholder_dict_for scope
                         (collected (Example.graph ∅) "trainable_variables"
                            scope)) entry)
            ["policy"%string] placeholders.
Proof.
  apply (proj1 (create_placeholders_for_vars_result (Example.meta ∅)
                  (MetaPolicy.scopes_list ["policy"%string]) 2
                  "trainable_variables")).
  reflexivity.
Defined.

Example create_placeholders_for_vars_example :
  (MetaPolicy._create_placeholders_for_vars
     (MetaPolicy.scopes_tuple ["policy"%string]) 2 "trainable_variables"
     (Example.meta ∅)).1
  = Ret [[ [("W"%string,
             {| ph_id := 2; ph_dtype := float32; ph_shape := Some [4; 2]%Z |});
            ("b"%string,
             {| ph_id := 3; ph_dtype := float32; ph_shape := Some [2]%Z |})];
           [("W"%string,
             {| ph_id := 4; ph_dtype := float32; ph_shape := Some [4; 2]%Z |});
            ("b"%string,
             {| ph_id := 5; ph_dtype := float32; ph_shape := Some [2]%Z |})] ]].
Proof. reflexivity. Qed.

(** [range] of a negative number is empty: with a meta batch size of [-1]
    the entry of the scope is a list of no dict at all, not of [-1]. *)
Lemma create_placeholders_for_vars_negative :
  MetaPolicy._create_placeholders_for_vars
    (MetaPolicy.scopes_list ["policy"%string]) (-1) "trainable_variables"
    (Example.meta ∅)
  = (Ret [[]], Example.meta ∅).
Proof. reflexivity. Qed.

(** A dict with the first key only: [W] is set, [b] keeps its value. *)
Lemma set_params_assertion_witness :
  Policy.policy_params (self Example.trained) = Some Example.params ∧
  self (Policy.set_params [("W"%string, Example.full [4; 2]%Z 5)]
          Example.trained).2
  = self Example.trained ∧
  (∀ i, i ∉ var_id <$> take 1 (odict_values Example.params) →
        tf_store (tf (Policy.set_params [("W"%string, Example.full [4; 2]%Z 5)]
                        Example.trained).2) !! i
        = tf_store (tf Example.trained) !! i) ∧
  (Policy.set_params [("W"%string, Example.full [4; 2]%Z 5)] Example.trained).1
  = Ret () ∧
  tf_store (tf (Policy.set_params [("W"%string, Example.full [4; 2]%Z 5)]
                  Example.trained).2)
  = assign_all (zip (odict_values Example.params) [Example.full [4; 2]%Z 5])
               (tf_store (tf Example.trained)).
Proof.
  split; [reflexivity|].
  apply (proj2 (set_params_assertion Example.trained
                  [("W"%string, Example.full [4; 2]%Z 5)])
           Example.params eq_refl).
  apply keys_match_true. reflexivity.
Defined.

Example set_params_shorter :
  (Policy.set_params [("W"%string, Example.full [4; 2]%Z 5)] Example.trained).1
  = Ret () ∧
  tf_store (tf (Policy.set_params [("W"%string, Example.full [4; 2]%Z 5)]
                  Example.trained).2) !! 0
  = Some (Example.full [4; 2]%Z 5) ∧
  tf_store (tf (Policy.set_params [("W"%string, Example.full [4; 2]%Z 5)]
                  Example.trained).2) !! 1
  = Some (Example.full [2]%Z 9).
Proof. repeat split. Qed.

Example set_params_empty :
  (Policy.set_params [] Example.trained).1 = Ret () ∧
  tf_store (tf (Policy.set_params [] Example.trained).2)
  = tf_store (tf Example.trained).
Proof. repeat split. Qed.

(** A value of the wrong shape passes the assertion and fails in the run:
    the placeholder has been added, the variables are as before. *)
Example set_params_wrong_shape :
  (Policy.set_params [("W"%string, Example.full [2]%Z 5)] Example.trained).1
  = Raise InvalidArgumentError ∧
  next_node (Policy.set_params [("W"%string, Example.full [2]%Z 5)]
               Example.trained).2
  = 3 ∧
  tf_store (tf (Policy.set_params [("W"%string, Example.full [2]%Z 5)]
                  Example.trained).2)
  = tf_store (tf Example.trained).
Proof. repeat split. Qed.

(** A [float64] value is converted to the [float32] of the variable:
    16777217 is read back as 16777216. *)
Example set_params_converts :
  (Policy.get_param_values
     (Policy.set_params
        [("W"%string, Example.full_of float64 [4; 2]%Z 16777217)]
        Example.trained).2).1
  = Ret [("W"%string, Example.full [4; 2]%Z 16777216);
         ("b"%string, Example.full [2]%Z 9)].
Proof. reflexivity. Qed.

(** An object set up by [Policy.__init__] only cannot be pickled. *)
Lemma getstate_without_parameters :
  Policy.__getstate__ Example.blank = (Raise AttributeError, Example.blank).
Proof. reflexivity. Qed.

(** The trained policy is pickled and a fresh object is unpickled. *)
Lemma getstate_setstate_roundtrip_witness :
  Policy.Serializable___getstate__ Example.trained = (Ret (), Example.trained) ∧
  ∃ vals u2,
    Policy.get_param_values Example.trained = (Ret vals, Example.trained) ∧
    odict_keys vals = odict_keys Example.params ∧
    Policy.__getstate__ Example.trained
    = (Ret {| Policy.init_args := (); Policy.network_params := vals |},
       Example.trained) ∧
    Policy.__setstate__
      {| Policy.init_args := (); Policy.network_params := vals |} Example.blank
    = (Ret (), u2) ∧
    self u2 = Example.built ∧
    tf_store (tf u2)
    = assign_all (zip (odict_values Example.params) (odict_values vals))
                 (initialized (Example.graph ∅)) ∧
    Policy.get_param_values u2 = (Ret vals, u2).
Proof.
  assert (Hget : Policy.Serializable___getstate__ Example.trained
                 = (Ret (), Example.trained)) by reflexivity.
  split; [exact Hget|].
  apply (proj2 (getstate_setstate_roundtrip Example.trained Example.trained
                  Example.blank (on_self (λ _, Example.built) Example.blank) ()
                  Example.params Example.params Hget)).
  - reflexivity.
  - repeat constructor; eexists; reflexivity.
  - reflexivity.
  - reflexivity.
  - reflexivity.
  - change (NoDup [0; 1]). apply NoDup_cons. split; [|apply NoDup_singleton].
    intros Hin. apply list_elem_of_singleton in Hin. discriminate.
  - repeat constructor.
Defined.

Example getstate_setstate_example :
  (Policy.__getstate__ Example.trained).1
  = Ret {| Policy.init_args := ();
           Policy.network_params :=
             [("W"%string, Example.full [4; 2]%Z 7);
              ("b"%string, Example.full [2]%Z 9)] |} ∧
  (Policy.get_param_values
     (Policy.__setstate__
        {| Policy.init_args := ();
           Policy.network_params :=
             [("W"%string, Example.full [4; 2]%Z 7);
              ("b"%string, Example.full [2]%Z 9)] |}
        Example.blank).2).1
  = Ret [("W"%string, Example.full [4; 2]%Z 7);
         ("b"%string, Example.full [2]%Z 9)].
Proof. repeat split. Qed.

(** [reset], [switch_to_pre_update], [update_task_parameters] and
    [get_params] return; none of them raises [NotImplementedError]. *)
Lemma methods_that_return :
  exec (Policy_reset None) (Example.meta ∅) = (Ret PyNone, Example.meta ∅) ∧
  (exec MetaPolicy_switch_to_pre_update (Example.meta ∅)).1 = Ret PyNone ∧
  (exec (MetaPolicy_update_task_parameters (Some [])) (Example.meta ∅)).1
  = Ret PyNone ∧
  (exec Policy_get_params (Example.meta ∅)).1 = Ret (PyParams Example.params).
Proof. repeat split. Qed.

(** [set_params] refuses a dict whose first key is not the first
    parameter's, and [_create_placeholders_for_vars] refuses a [scopes]
    that is neither a list nor a tuple: both raise [AssertionError]. *)
Lemma methods_that_validate :
  raises AssertionError
    (Policy.set_params [("b"%string, Example.full [2]%Z 5)]) Example.trained ∧
  raises AssertionError
    (exec (Policy_set_params [("b"%string, Example.full [2]%Z 5)]))
    (Example.meta ∅) ∧
  raises AssertionError
    (exec (MetaPolicy__create_placeholders_for_vars
             (MetaPolicy.scopes_other ()) 1 "trainable_variables"))
    (Example.meta ∅).
Proof. repeat split. Qed.

(** A stub, an empty body and a mode switch, by their kinds. *)
Lemma methods_by_kind_witness :
  exec MetaPolicy_build_graph (Example.meta ∅)
  = (Raise NotImplementedError, Example.meta ∅) ∧
  exec (Policy_log_diagnostics ()) (Example.meta ∅)
  = (Ret PyNone, Example.meta ∅) ∧
  ∃ w', exec MetaPolicy_switch_to_pre_update (Example.meta ∅) = (Ret PyNone, w') ∧
        MetaPolicy.super (self w') = Example.built ∧
        tf w' = Example.graph ∅.
Proof.
  split; [|split].
  - exact (methods_by_kind MetaPolicy_build_graph (Example.meta ∅)).
  - exact (methods_by_kind (Policy_log_diagnostics ()) (Example.meta ∅)).
  - exact (methods_by_kind MetaPolicy_switch_to_pre_update (Example.meta ∅)).
Defined.

(** The assertion of [set_params] on the keys [b] against [W], [b]. *)
Lemma validation_by_method_witness :
  raises AssertionError
    (exec (Policy_set_params [("b"%string, Example.full [2]%Z 5)]))
    (Example.meta ∅) ↔
  ∃ ps, Policy.policy_params (MetaPolicy.super (self (Example.meta ∅))) = Some ps ∧
        keys_differ (odict_keys ps) ["b"%string].
Proof.
  exact (validation_by_method
           (Policy_set_params [("b"%string, Example.full [2]%Z 5)])
           (Example.meta ∅)).
Defined.

Lemma example_params_distinct :
  NoDup (var_id <$> odict_values Example.params).
Proof.
  change (NoDup [0; 1]). apply NoDup_cons. split; [|apply NoDup_singleton].
  intros Hin. apply list_elem_of_singleton in Hin. discriminate.
Qed.

Lemma example_globals_distinct :
  NoDup (var_id <$> tf_global_variables (Example.graph ∅)).
Proof. exact example_params_distinct. Qed.

(** Both parameters are written, [W] from a [float64] array, then read
    back: [W] comes back as the [float32] array it was converted to. *)
Lemma set_params_then_get_param_values_witness :
  convert_params Example.params
    [("W"%string, Example.full_of float64 [4; 2]%Z 16777217);
     ("b"%string, Example.full [2]%Z 2)]
  = Some [("W"%string, Example.full [4; 2]%Z 16777216);
          ("b"%string, Example.full [2]%Z 2)] ∧
  ∃ w', Policy.set_params
          [("W"%string, Example.full_of float64 [4; 2]%Z 16777217);
           ("b"%string, Example.full [2]%Z 2)] Example.trained
        = (Ret (), w') ∧
        Policy.get_param_values w'
        = (Ret [("W"%string, Example.full [4; 2]%Z 16777216);
                ("b"%string, Example.full [2]%Z 2)], w') ∧
        odict_keys [("W"%string, Example.full [4; 2]%Z 16777216);
                    ("b"%string, Example.full [2]%Z 2)]
        = ["W"%string; "b"%string] ∧
        (Forall2 (λ v x, is_value_of v x = true)
           (odict_values Example.params)
           [Example.full_of float64 [4; 2]%Z 16777217; Example.full [2]%Z 2] →
         [("W"%string, Example.full [4; 2]%Z 16777216);
          ("b"%string, Example.full [2]%Z 2)]
         = [("W"%string, Example.full_of float64 [4; 2]%Z 16777217);
            ("b"%string, Example.full [2]%Z 2)]).
Proof.
  split; [reflexivity|].
  apply (set_params_then_get_param_values Example.trained Example.params
           [("W"%string, Example.full_of float64 [4; 2]%Z 16777217);
            ("b"%string, Example.full [2]%Z 2)]
           [("W"%string, Example.full [4; 2]%Z 16777216);
            ("b"%string, Example.full [2]%Z 2)]).
  - reflexivity.
  - reflexivity.
  - exact example_params_distinct.
  - reflexivity.
Defined.

(** The values of the trained policy are read, then written. *)
Lemma get_param_values_then_set_params_witness :
  ∃ w', Policy.set_params
          [("W"%string, Example.full [4; 2]%Z 7);
           ("b"%string, Example.full [2]%Z 9)] Example.trained
        = (Ret (), w') ∧
        self w' = self Example.trained ∧
        tf_store (tf w') = tf_store (tf Example.trained).
Proof.
  apply (get_param_values_then_set_params Example.trained Example.trained
           [("W"%string, Example.full [4; 2]%Z 7);
            ("b"%string, Example.full [2]%Z 9)]).
  reflexivity.
Defined.


(** One value for two parameters, and of the wrong shape: the run raises,
    and the one placeholder is in the graph. *)
Lemma set_params_adds_placeholders_witness :
  (Policy.set_params [("W"%string, Example.full [2]%Z 5)] Example.trained).1
  = Raise InvalidArgumentError ∧
  next_node (Policy.set_params [("W"%string, Example.full [2]%Z 5)]
               Example.trained).2
  = next_node Example.trained + 1 ∧
  self (Policy.set_params [("W"%string, Example.full [2]%Z 5)]
          Example.trained).2
  = self Example.trained ∧
  tf_global_variables
    (tf (Policy.set_params [("W"%string, Example.full [2]%Z 5)]
           Example.trained).2)
  = tf_global_variables (tf Example.trained) ∧
  tf_collections
    (tf (Policy.set_params [("W"%string, Example.full [2]%Z 5)]
           Example.trained).2)
  = tf_collections (tf Example.trained).
Proof.
  split; [reflexivity|].
  apply (set_params_adds_placeholders Example.trained Example.params
           [("W"%string, Example.full [2]%Z 5)]).
  - reflexivity.
  - apply keys_match_true. reflexivity.
Defined.

(** [W] alone first, then both parameters. *)
Lemma set_params_last_wins_witness :
  ∃ w1 w2 w2',
    Policy.set_params [("W"%string, Example.full [4; 2]%Z 5)] Example.trained
    = (Ret (), w1) ∧
    Policy.set_params
      [("W"%string, Example.full [4; 2]%Z 1); ("b"%string, Example.full [2]%Z 2)]
      w1
    = (Ret (), w2) ∧
    Policy.set_params
      [("W"%string, Example.full [4; 2]%Z 1); ("b"%string, Example.full [2]%Z 2)]
      Example.trained
    = (Ret (), w2') ∧
    tf_store (tf w2) = tf_store (tf w2').
Proof.
  apply (set_params_last_wins Example.trained Example.params
           [("W"%string, Example.full [4; 2]%Z 5)]
           [("W"%string, Example.full [4; 2]%Z 1);
            ("b"%string, Example.full [2]%Z 2)]).
  - reflexivity.
  - apply keys_match_true. reflexivity.
  - apply keys_match_true. reflexivity.
  - exists [("W"%string, Example.full [4; 2]%Z 5)]. reflexivity.
  - exists [("W"%string, Example.full [4; 2]%Z 1);
            ("b"%string, Example.full [2]%Z 2)].
    reflexivity.
  - cbn. lia.
Defined.

(** Only [W] was saved: [b] is back at its initial value. *)
Lemma setstate_reinitialises_other_variables_witness :
  tf_store (tf (Policy.__setstate__ Example.saved_W Example.blank).2)
    !! var_id Example.b
  = Some (var_init Example.b) ∧
  (Policy.__setstate__ Example.saved_W Example.blank).1 = Ret ().
Proof.
  destruct (setstate_reinitialises_other_variables Example.saved_W
              Example.blank (on_self (λ _, Example.built) Example.blank)
              Example.params Example.b) as [Hb Hreturns].
  - reflexivity.
  - reflexivity.
  - apply keys_match_true. reflexivity.
  - exact example_globals_distinct.
  - repeat constructor.
  - intros Hin. apply list_elem_of_singleton in Hin. discriminate.
  - split; [exact Hb|]. apply Hreturns.
    exists [("W"%string, Example.full [4; 2]%Z 7)]. reflexivity.
Defined.

(** The saved dict starts with [b], the rebuilt parameters with [W]. *)
Lemma setstate_fails_after_reinitialising_witness :
  Policy.__setstate__ Example.saved_b Example.trained
  = (Raise AssertionError,
     on_tf (λ g, set_store (initialized g) g) Example.trained).
Proof.
  apply (setstate_fails_after_reinitialising Example.saved_b
           Example.trained Example.trained Example.params).
  - reflexivity.
  - reflexivity.
  - apply keys_match_differ. reflexivity.
Defined.

(** No task: one empty entry for the one scope. *)
Lemma create_placeholders_nothing_to_do_witness :
  MetaPolicy._create_placeholders_for_vars
    (MetaPolicy.scopes_list ["policy"%string]) 0 "trainable_variables"
    (Example.meta ∅)
  = (Ret [[]], Example.meta ∅).
Proof.
  apply (create_placeholders_nothing_to_do (Example.meta ∅)
           (MetaPolicy.scopes_list ["policy"%string]) 0 "trainable_variables").
  - reflexivity.
  - lia.
Defined.

(** Two tasks, two parameters: four distinct new nodes. *)
Lemma create_placeholders_for_vars_fresh_witness :
  ∃ placeholders w',
    MetaPolicy._create_placeholders_for_vars
      (MetaPolicy.scopes_list ["policy"%string]) 2 "trainable_variables"
      (Example.meta ∅)
    = (Ret placeholders, w') ∧
    NoDup (placeholders_ids placeholders) ∧
    ∀ i, i ∈ placeholders_ids placeholders →
         next_node (Example.meta ∅) ≤ i < next_node w'.
Proof.
  apply (create_placeholders_for_vars_fresh (Example.meta ∅)
           (MetaPolicy.scopes_list ["policy"%string]) 2 "trainable_variables").
  reflexivity.
Defined.

End OnExample.
